(** * Diff Sentinel: a shallow embedding of [src/index.js]

    The action runs a list of shell commands, counts the failed ones, asks
    the version-control collaborator whether the working tree has changed
    and reports through the CI sink.  The script is embedded as a program
    in a small monad that threads the state of the outside world, collects
    the calls made to the collaborators as a trace and carries the three
    ways a JavaScript statement can complete here: normally, by a thrown
    value, or by [process.exit]. *)

From Stdlib Require Import String Ascii List ZArith Bool Lia.
From Stdlib Require Import Strings.Byte.
From Stdlib Require Import Numbers.DecimalString.
Import ListNotations.
Local Open Scope string_scope.
Local Set Warnings "-register-all".

(** ** JavaScript values *)

Module Js.

(** The values the script inspects with [typeof], [Array.isArray] and
    [instanceof].  Numbers are the integer-valued ones (exit codes, lengths);
    [JError] is an [Error] object with its [name] and [message]; [JExecaError]
    is an instance of execa's [ExecaError] (a subclass of [Error]) with the
    fields the script reads, [undefined] fields being [None]; [JObject] is any
    other plain object.  Symbols and objects whose own [toString] runs user
    code are not part of this universe. *)
Inductive Value : Type :=
| JUndefined
| JNull
| JBool (b : bool)
| JNum (z : Z)
| JStr (s : string)
| JArr (elements : list Value)
| JBytes (bytes : list byte)
| JObject
| JError (name message : string)
| JExecaError (exitCode : option Z) (signal : option string)
              (message : string) (stdout stderr : Value).

(** The line feed, ['\n']. *)
Definition LF : string := String "010"%char EmptyString.

(** [String(n)] for an integer-valued number. *)
Definition string_of_Z (z : Z) : string := NilZero.string_of_int (Z.to_int z).

(** [String(n)] for a length. *)
Definition string_of_nat (n : nat) : string := string_of_Z (Z.of_nat n).

(** [String(b)] for a boolean. *)
Definition string_of_bool (b : bool) : string := if b then "true" else "false".

(** [Error.prototype.toString]: the name, the message, or both with a colon
    between, according to which of them is empty. *)
Definition error_toString (name message : string) : string :=
  if String.eqb name "" then message
  else if String.eqb message "" then name
  else name ++ ": " ++ message.

(** [Array.prototype.join(sep)] over already converted elements. *)
Definition join (sep : string) (parts : list string) : string :=
  String.concat sep parts.

(** [String(value)].  An array is its elements joined with commas, where
    [undefined] and [null] elements give the empty string; a [Uint8Array]
    prints its numbers the same way. *)
Fixpoint to_String (value : Value) : string :=
  match value with
  | JUndefined => "undefined"
  | JNull => "null"
  | JBool b => string_of_bool b
  | JNum z => string_of_Z z
  | JStr s => s
  | JArr elements =>
      join ","
        (map (fun e => match e with
                       | JUndefined | JNull => ""
                       | _ => to_String e
                       end) elements)
  | JBytes bytes => join "," (map (fun b => string_of_Z (Z.of_N (Byte.to_N b))) bytes)
  | JObject => "[object Object]"
  | JError name message => error_toString name message
  | JExecaError _ _ message _ _ => error_toString "ExecaError" message
  end.

(** The string an element contributes to [Array.prototype.join]. *)
Definition element_String (e : Value) : string :=
  match e with
  | JUndefined | JNull => ""
  | _ => to_String e
  end.

(** [value.join(sep)] for an array [value]. *)
Definition array_join (sep : string) (elements : list Value) : string :=
  join sep (map element_String elements).

(** [value instanceof Error]. *)
Definition instanceof_Error (value : Value) : bool :=
  match value with
  | JError _ _ | JExecaError _ _ _ _ _ => true
  | _ => false
  end.

(** [value instanceof ExecaError]. *)
Definition instanceof_ExecaError (value : Value) : bool :=
  match value with
  | JExecaError _ _ _ _ _ => true
  | _ => false
  end.

(** [error.name] of an [Error] object. *)
Definition error_name (value : Value) : string :=
  match value with
  | JError name _ => name
  | JExecaError _ _ _ _ _ => "ExecaError"
  | _ => "undefined"
  end.

(** [error.message] of an [Error] object. *)
Definition error_message (value : Value) : string :=
  match value with
  | JError _ message => message
  | JExecaError _ _ message _ _ => message
  | _ => "undefined"
  end.

(** A template-literal hole [${x}] for a field that is a number or [null]. *)
Definition template_number (x : option Z) : string :=
  match x with
  | Some z => string_of_Z z
  | None => "null"
  end.

(** A template-literal hole [${x}] for a field that is a string or absent. *)
Definition template_string (x : option string) : string :=
  match x with
  | Some s => s
  | None => "undefined"
  end.

(** Truthiness of a string: only the empty string is falsy. *)
Definition truthy (s : string) : bool := negb (String.eqb s "").

End Js.

Import Js.

(** ** The data model *)

(** The [CommandResult] typedef.  [exitCode] and [signal] are [null] when
    absent, the optional [message] is missing from the object when absent:
    all three are [None] then. *)
Record CommandResult : Type := {
  command : string;
  ok : bool;
  stdout : string;
  stderr : string;
  exitCode : option Z;
  signal : option string;
  message : option string
}.

(** How [await execa(command, {shell: true})] ends: it resolves to a result
    object whose [stdout] and [stderr] the script reads, or it throws. *)
Inductive ExecaOutcome : Type :=
| Resolved (result_stdout result_stderr : Value)
| Rejected (error : Value).

(** The blocks added to [core.summary] before [write()]. *)
Inductive SummaryItem : Type :=
| Heading (text : string) (level : option nat)
| Raw (text : string)
| ItemList (items : list string)
| CodeBlock (code lang : string).

(** The calls the script makes to its collaborators, in the order made. *)
Inductive Event : Type :=
| Execa (cmd : string)
| StartGroup (name : string)
| EndGroup
| Warning (text : string)
| Error (text : string)
| Notice (text : string)
| SetOutput (name value : string)
| ConsoleLog (line : string)
| GitHasDiff (answer : bool)
| GitGetChangedFiles (answer : list string)
| GitDiff (files : list string)
| SummaryWrite (document : list SummaryItem)
| SetFailed (text : string).

(** The action's inputs as [@actions/core] hands them to the script:
    [getMultilineInput('run')], [getInput('fail-message')] (the empty string
    when the input is not given) and the two [getBooleanInput] switches. *)
Record Inputs : Type := {
  commands : list string;
  fail_message : string;
  failOnCommandError : bool;
  failOnDiff : bool
}.

(** The collaborators the script imports, under their contracts: the command
    executor, the version-control inspector ([use-git]) and the runtime's
    decoding of a byte buffer ([Buffer.from(value).toString()]).  Each call
    may depend on and change the state of the outside [World].  The executor
    is the one collaborator whose failure the script handles, so its outcome
    may be a thrown value; the inspector and the reporting sink answer as
    their contracts say, and a call of theirs that throws is outside this
    model. *)
Class Host : Type := {
  World : Type;
  decode : list byte -> string;
  execa : string -> World -> ExecaOutcome * World;
  git_hasDiff : World -> bool * World;
  git_getChangedFiles : World -> list string * World;
  git_diff : list string -> World -> World
}.

(** How a statement completes. *)
Inductive Completion (A : Type) : Type :=
| Normal (a : A)
| Throw (error : Value)
| Exit (code : Z).

Arguments Normal {A} a.
Arguments Throw {A} error.
Arguments Exit {A} code.

(** How the whole script ends: it runs to its end, it is ended by
    [process.exit(code)], or its [catch] reports a failure to the CI sink
    with [core.setFailed(text)], which makes the exit status non-zero. *)
Inductive RunEnd : Type :=
| Finished
| Exited (code : Z)
| Failed (text : string).

(** The exit status of the process. *)
Definition exit_status (e : RunEnd) : Z :=
  match e with
  | Finished => 0
  | Exited code => code
  | Failed _ => 1
  end.

(** ** The script *)

Section Script.

Context {host : Host}.

(** A program: from a world to a completion, the next world and the calls
    made on the way. *)
Definition Act (A : Type) : Type := World -> Completion A * World * list Event.

Definition ret {A} (a : A) : Act A := fun w => (Normal a, w, []).

Definition bind {A B} (m : Act A) (k : A -> Act B) : Act B :=
  fun w =>
    match m w with
    | (Normal a, w1, t1) =>
        match k a w1 with
        | (c, w2, t2) => (c, w2, (t1 ++ t2)%list)
        end
    | (Throw e, w1, t1) => (Throw e, w1, t1)
    | (Exit code, w1, t1) => (Exit code, w1, t1)
    end.

(** [throw error]. *)
Definition throw {A} (error : Value) : Act A := fun w => (Throw error, w, []).

(** [process.exit(code)]: no [catch] sees it. *)
Definition process_exit {A} (code : Z) : Act A := fun w => (Exit code, w, []).

(** [try { m } catch (error) { handler error }]. *)
Definition try_catch {A} (m : Act A) (handler : Value -> Act A) : Act A :=
  fun w =>
    match m w with
    | (Throw e, w1, t1) =>
        match handler e w1 with
        | (c, w2, t2) => (c, w2, (t1 ++ t2)%list)
        end
    | r => r
    end.

(** A call to the reporting sink: it is recorded and returns. *)
Definition emit (e : Event) : Act unit := fun w => (Normal tt, w, [e]).

End Script.

Declare Scope act_scope.
Delimit Scope act_scope with act.
Notation "x <- m ;; k" := (bind m (fun x => k))
  (at level 61, m at next level, right associativity) : act_scope.
Notation "m ;; k" := (bind m (fun _ => k))
  (at level 61, right associativity) : act_scope.
Local Open Scope act_scope.

Section Action.

Context {host : Host}.

(** [core.getInput('fail-message') || 'Generated or formatted files are out
    of date.'], from the value [getInput] returned. *)
Definition default_fail_message : string :=
  "Generated or formatted files are out of date.".

Definition failMessage (input : string) : string :=
  if truthy input then input else default_fail_message.

(** [normalizeOutput(value)]. *)
Definition normalizeOutput (value : Value) : string :=
  match value with
  | JStr s => s
  | JArr elements => array_join LF elements
  | JBytes bytes => decode bytes
  | _ => ""
  end.

(** [await execa(command, { shell: true, ...options })] with the default,
    empty [options]. *)
Definition call_execa (cmd : string) : Act (Value * Value) :=
  fun w =>
    match execa cmd w with
    | (Resolved out err, w1) => (Normal (out, err), w1, [Execa cmd])
    | (Rejected error, w1) => (Throw error, w1, [Execa cmd])
    end.

(** [runCommand(command)]. *)
Definition runCommand (cmd : string) : Act CommandResult :=
  try_catch
    (result <- call_execa cmd ;;
     ret {| command := cmd;
            ok := true;
            stdout := normalizeOutput (fst result);
            stderr := normalizeOutput (snd result);
            exitCode := None;
            signal := None;
            message := None |})
    (fun error =>
       match error with
       | JExecaError error_exitCode error_signal error_message error_stdout error_stderr =>
           ret {| command := cmd;
                  ok := false;
                  stdout := normalizeOutput error_stdout;
                  stderr := normalizeOutput error_stderr;
                  exitCode := error_exitCode;
                  signal := error_signal;
                  message := Some error_message |}
       | _ =>
           ret {| command := cmd;
                  ok := false;
                  stdout := "";
                  stderr := "";
                  exitCode := None;
                  signal := None;
                  message := Some (to_String error) |}
       end).

(** The [for (const command of cmds)] loop of [runCommands], with the
    [results] array pushed to so far. *)
Fixpoint runCommands_from (results : list CommandResult) (cmds : list string)
  : Act (list CommandResult) :=
  match cmds with
  | [] => ret results
  | cmd :: rest =>
      r <- runCommand cmd ;;
      runCommands_from (results ++ [r])%list rest
  end.

(** [runCommands(cmds)]. *)
Definition runCommands (cmds : list string) : Act (list CommandResult) :=
  runCommands_from [] cmds.

(** [for (const x of xs) body(x)]. *)
Fixpoint for_of {A} (xs : list A) (body : A -> Act unit) : Act unit :=
  match xs with
  | [] => ret tt
  | x :: rest => body x ;; for_of rest body
  end.

(** [if (c) m] without [else]. *)
Definition when (c : bool) (m : Act unit) : Act unit :=
  if c then m else ret tt.

(** The calls to the version-control collaborator. *)
Definition call_hasDiff : Act bool :=
  fun w => match git_hasDiff w with (b, w1) => (Normal b, w1, [GitHasDiff b]) end.

Definition call_getChangedFiles : Act (list string) :=
  fun w =>
    match git_getChangedFiles w with
    | (files, w1) => (Normal files, w1, [GitGetChangedFiles files])
    end.

Definition call_diff (files : list string) : Act unit :=
  fun w => (Normal tt, git_diff files w, [GitDiff files]).

(** [results.filter((r) => !r.ok)]. *)
Definition failures_of (results : list CommandResult) : list CommandResult :=
  filter (fun r => negb (ok r)) results.

(** The line of the fatal message for one failed command:
    [`- ${f.command} (exit code: ${f.exitCode}): ${f.message}`]. *)
Definition failure_line (f : CommandResult) : string :=
  "- " ++ command f ++ " (exit code: " ++ template_number (exitCode f) ++ "): "
       ++ template_string (message f).

(** The message of the error thrown by the command-failure gate. *)
Definition command_error_message (failures : list CommandResult) : string :=
  "Command execution failed (" ++ string_of_nat (length failures) ++ " failures):" ++ LF
    ++ join LF (map failure_line failures).

(** The body of the loop that reports one failed command. *)
Definition report_failure (f : CommandResult) : Act unit :=
  emit (Warning ("Command failed: " ++ command f)) ;;
  when (match exitCode f with Some _ => true | None => false end)
       (emit (Warning ("Exit code: " ++ template_number (exitCode f)))) ;;
  when (truthy (stderr f)) (emit (Error (stderr f))).

(** The command-failure gate: lines 118 to 142. *)
Definition command_gate (inp : Inputs) (results : list CommandResult) : Act unit :=
  let failures := failures_of results in
  emit (SetOutput "command_failures" (string_of_nat (length failures))) ;;
  when (0 <? length failures)%nat
    (emit (StartGroup "Command failures") ;;
     for_of failures report_failure ;;
     emit EndGroup ;;
     when (failOnCommandError inp)
       (throw (JError "Error" (command_error_message failures)))).

(** The diff gate: lines 144 to 181. *)
Definition diff_gate (inp : Inputs) : Act unit :=
  diffExists <- call_hasDiff ;;
  emit (SetOutput "has_diff" (string_of_bool diffExists)) ;;
  when (negb diffExists)
    (emit (Notice "Working tree is clean") ;;
     emit (SummaryWrite [Heading "Diff Sentinel" None;
                         Raw ("No uncommitted changes detected" ++ LF)]) ;;
     process_exit 0) ;;
  changedFiles <- call_getChangedFiles ;;
  emit (SetOutput "changed_files" (join LF changedFiles)) ;;
  emit (SetOutput "diff_count" (string_of_nat (length changedFiles))) ;;
  emit (StartGroup "Changed files") ;;
  for_of changedFiles (fun f => emit (ConsoleLog ("- " ++ f))) ;;
  emit EndGroup ;;
  emit (StartGroup "Diff") ;;
  call_diff changedFiles ;;
  emit EndGroup ;;
  emit (SummaryWrite [Heading "Diff Sentinel Failed" (Some 1);
                      Raw (failMessage (fail_message inp) ++ LF);
                      Heading "Changed files" (Some 3);
                      ItemList changedFiles;
                      Heading "How to fix" (Some 3);
                      CodeBlock (join LF (commands inp)) "bash"]) ;;
  when (failOnDiff inp) (throw (JError "Error" (failMessage (fail_message inp)))).

(** The body of the top-level [try] from line 114 on, for inputs that have
    been read.  The banner and the reading of the inputs, which come before
    it in the same [try], are added in [action_body] below. *)
Definition script_body (inp : Inputs) : Act unit :=
  emit (StartGroup "Running commands") ;;
  results <- runCommands (commands inp) ;;
  emit EndGroup ;;
  command_gate inp results ;;
  diff_gate inp.

(** The text the top-level [catch] hands to [core.setFailed]. *)
Definition failure_text (error : Value) : string :=
  if instanceof_Error error
  then error_name error ++ ": " ++ error_message error
  else to_String error.

(** The run from line 114 on, with the [catch]: the action once the banner
    is printed and the inputs are read.  The whole action is [action]
    below. *)
Definition run (inp : Inputs) (w : World) : RunEnd * World * list Event :=
  match script_body inp w with
  | (Normal _, w1, t) => (Finished, w1, t)
  | (Exit code, w1, t) => (Exited code, w1, t)
  | (Throw error, w1, t) =>
      (Failed (failure_text error), w1, (t ++ [SetFailed (failure_text error)])%list)
  end.

End Action.

(** ** Vocabulary of the statements *)

(** A field of a result is present when it is neither [null] nor missing. *)
Definition present {A} (field : option A) : Prop := field <> None.

Definition absent {A} (field : option A) : Prop := field = None.

(** The invariant of the data model on one [CommandResult]. *)
Definition result_invariant (r : CommandResult) : Prop :=
  (ok r = true -> absent (exitCode r) /\ absent (signal r) /\ absent (message r))
  /\ (ok r = false -> present (exitCode r) \/ present (signal r) \/ present (message r)).

(** The calls made before the diff gate is entered: running the commands
    and reporting their failures. *)
Definition before_diff_gate (e : Event) : bool :=
  match e with
  | Execa _ | StartGroup _ | EndGroup | Warning _ | Error _ => true
  | SetOutput name _ => String.eqb name "command_failures"
  | _ => false
  end.

(** The calls a run makes once the inspector has reported changes [files]. *)
Definition diff_report (inp : Inputs) (files : list string) : list Event :=
  [GitHasDiff true;
   SetOutput "has_diff" "true";
   GitGetChangedFiles files;
   SetOutput "changed_files" (join LF files);
   SetOutput "diff_count" (string_of_nat (length files));
   StartGroup "Changed files"]
  ++ map (fun f => ConsoleLog ("- " ++ f)) files
  ++ [EndGroup;
      StartGroup "Diff";
      GitDiff files;
      EndGroup;
      SummaryWrite [Heading "Diff Sentinel Failed" (Some 1);
                    Raw (failMessage (fail_message inp) ++ LF);
                    Heading "Changed files" (Some 3);
                    ItemList files;
                    Heading "How to fix" (Some 3);
                    CodeBlock (join LF (commands inp)) "bash"]].

(** The calls a run makes once the inspector has reported a clean tree. *)
Definition clean_report : list Event :=
  [GitHasDiff false;
   SetOutput "has_diff" "false";
   Notice "Working tree is clean";
   SummaryWrite [Heading "Diff Sentinel" None;
                 Raw ("No uncommitted changes detected" ++ LF)]].

(** The lines of a text, as [text.split('\n')] gives them. *)
Fixpoint lines (text : string) : list string :=
  match text with
  | EmptyString => [""]
  | String c rest =>
      if Ascii.eqb c "010"%char then "" :: lines rest
      else match lines rest with
           | [] => [String c ""]
           | first :: others => String c first :: others
           end
  end.

(** The text fits on one line. *)
Fixpoint one_line (text : string) : bool :=
  match text with
  | EmptyString => true
  | String c rest => negb (Ascii.eqb c "010"%char) && one_line rest
  end.

Section Pipeline.

Context {host : Host}.

(** [pipeline w cmds results w'] : starting in world [w], the results are
    those of [runCommand] on each command of [cmds] in turn, each command
    run in the world the one before it left, ending in [w']. *)
Inductive pipeline : World -> list string -> list CommandResult -> World -> Prop :=
| pipeline_nil w : pipeline w [] [] w
| pipeline_cons w cmd r w1 rest results w2 :
    runCommand cmd w = (Normal r, w1, [Execa cmd]) ->
    pipeline w1 rest results w2 ->
    pipeline w (cmd :: rest) (r :: results) w2.

End Pipeline.

(** ** A small host to run the script on

    The world is the list of files changed in the working tree.  The shell
    knows [true], [false], [exit 2], a generator [gen] that writes [out.txt]
    and a command [kill] that dies of a signal; the executor refuses the
    empty command with a [TypeError] of its own, and any other command is
    not found by the shell. *)
Definition demo_execa (cmd : string) (w : list string) : ExecaOutcome * list string :=
  if String.eqb cmd "true" then (Resolved (JStr "") (JStr ""), w)
  else if String.eqb cmd "gen" then
    (Resolved (JArr [JStr "writing"; JStr "out.txt"]) JUndefined, "out.txt" :: w)
  else if String.eqb cmd "false" then
    (Rejected (JExecaError (Some 1%Z) None "Command failed with exit code 1: false"
                           (JStr "") (JStr "")), w)
  else if String.eqb cmd "exit 2" then
    (Rejected (JExecaError (Some 2%Z) None "Command failed with exit code 2: exit 2"
                           (JStr "") (JStr "")), w)
  else if String.eqb cmd "kill" then
    (Rejected (JExecaError None (Some "SIGTERM") "Command was killed with SIGTERM: kill"
                           (JStr "") (JStr "Terminated")), w)
  else if String.eqb cmd "" then
    (Rejected (JError "TypeError" "Command must not be empty"), w)
  else
    (Rejected (JExecaError (Some 127%Z) None ("Command failed with exit code 127: " ++ cmd)
                           (JStr "") (JStr ("sh: " ++ cmd ++ ": not found"))), w).

#[local] Instance demo_host : Host := {|
  World := list string;
  decode := string_of_list_byte;
  execa := demo_execa;
  git_hasDiff := fun w => (match w with [] => false | _ => true end, w);
  git_getChangedFiles := fun w => (w, w);
  git_diff := fun _ w => w
|}.

Definition demo_inputs (cmds : list string) (text : string) (on_error on_diff : bool)
  : Inputs :=
  {| commands := cmds; fail_message := text;
     failOnCommandError := on_error; failOnDiff := on_diff |}.


(** A generator leaves [out.txt] behind and the diff gate is armed. *)
Definition demo_stale : Inputs := demo_inputs ["gen"] "stale" false true.

(** The same with no [fail-message] given. *)
Definition demo_default : Inputs := demo_inputs ["gen"] "" false true.

(** Three of four commands fail and the command-failure gate is armed. *)
Definition demo_failing : Inputs :=
  demo_inputs ["gen"; "false"; ""; "kill"] "stale" true true.

(** Nothing touches the working tree. *)
Definition demo_clean : Inputs := demo_inputs ["true"; "false"] "stale" false true.

(** The results of the commands of [demo_failing]. *)
Definition demo_failing_results : list CommandResult :=
  match runCommands (commands demo_failing) [] with
  | (Normal results, _, _) => results
  | _ => []
  end.

(** ** The calls of a run, piece by piece *)

(** The calls that report one failed command: lines 125 to 127. *)
Definition failure_events (f : CommandResult) : list Event :=
  Warning ("Command failed: " ++ command f)
  :: (match exitCode f with
      | Some _ => [Warning ("Exit code: " ++ template_number (exitCode f))]
      | None => []
      end
      ++ if truthy (stderr f) then [Error (stderr f)] else []).

(** The calls of the command-failure gate for the given results. *)
Definition gate_events (results : list CommandResult) : list Event :=
  SetOutput "command_failures" (string_of_nat (length (failures_of results)))
  :: match failures_of results with
     | [] => []
     | _ :: _ =>
         StartGroup "Command failures"
         :: flat_map failure_events (failures_of results) ++ [EndGroup]
     end.

(** The calls made before the diff gate. *)
Definition commands_events (inp : Inputs) (results : list CommandResult) : list Event :=
  StartGroup "Running commands"
  :: map Execa (commands inp) ++ EndGroup :: gate_events results.

(** Classes of calls. *)
Definition is_output (name : string) (e : Event) : bool :=
  match e with
  | SetOutput n _ => String.eqb n name
  | _ => false
  end.

Definition is_execa (e : Event) : bool :=
  match e with Execa _ => true | _ => false end.

Definition is_annotation (e : Event) : bool :=
  match e with Warning _ | Error _ => true | _ => false end.

Definition is_summary (e : Event) : bool :=
  match e with SummaryWrite _ => true | _ => false end.

Definition is_setFailed (e : Event) : bool :=
  match e with SetFailed _ => true | _ => false end.

Definition is_inspector (e : Event) : bool :=
  match e with
  | GitHasDiff _ | GitGetChangedFiles _ | GitDiff _ => true
  | _ => false
  end.

Definition is_hasDiff (e : Event) : bool :=
  match e with GitHasDiff _ => true | _ => false end.

(** The log groups of a trace are well formed from the state [opened]: a
    group is started only when none is open, ended only when one is, and
    none is left open at the end. *)
Fixpoint groups_closed (opened : bool) (t : list Event) : bool :=
  match t with
  | [] => negb opened
  | StartGroup _ :: rest => negb opened && groups_closed true rest
  | EndGroup :: rest => opened && groups_closed false rest
  | _ :: rest => groups_closed opened rest
  end.

(** ** The banner: lines 10 to 26 *)

(** What the banner takes from the runtime and from [ansilory]:
    [String.prototype.trim] and [trimEnd], and the two styles
    [ansi.cyan.bold.apply] and [ansi.gray.dim.apply]. *)
Class Terminal : Type := {
  trim : string -> string;
  trimEnd : string -> string;
  cyan_bold : string -> string;
  gray_dim : string -> string
}.

(** [array[i] = x] at an index inside the array; the script assigns only at
    an index it has just read. *)
Fixpoint replace_at (i : nat) (x : string) (array : list string) : list string :=
  match array, i with
  | [], _ => []
  | _ :: rest, O => x :: rest
  | y :: rest, S j => y :: replace_at j x rest
  end.

Section Banner.

Context {terminal : Terminal}.

(** The line that carries the version:
    [ansi.cyan.bold.apply(line.trimEnd()) + ' ' + ansi.gray.dim.apply(`v${pkg.version}`)]. *)
Definition stamped (line version : string) : string :=
  cyan_bold (trimEnd line) ++ " " ++ gray_dim ("v" ++ version).

(** The loop [for (let i = bannerLines.length - 1; i >= 0; i--)], entered
    with [n = i + 1].  Reading [bannerLines[i]] outside the array gives
    [undefined], whose [trim] throws: that is [None]. *)
Fixpoint stamp_loop (n : nat) (version : string) (bannerLines : list string)
  : option (list string) :=
  match n with
  | O => Some bannerLines
  | S i =>
      match nth_error bannerLines i with
      | None => None
      | Some line =>
          if truthy (trim line)
          then Some (replace_at i (stamped line version) bannerLines)
          else stamp_loop i version bannerLines
      end
  end.

(** The banner lines after the loop. *)
Definition stamp (version : string) (bannerLines : list string) : option (list string) :=
  stamp_loop (length bannerLines) version bannerLines.

(** The text handed to [console.log], from the art [figlet.textSync] drew
    and [pkg.version]. *)
Definition banner (art version : string) : option string :=
  match stamp version (lines art) with
  | Some bannerLines =>
      Some (join LF (map (fun l => if truthy (trim l) then cyan_bold l else l) bannerLines))
  | None => None
  end.

(** A line whose [trim] is empty. *)
Definition blank (line : string) : bool := negb (truthy (trim line)).

End Banner.

(** ** The release script: [release.sh], lines 8 to 27

    The part of the script that computes with the version: the test for a
    prerelease and the fields [read] splits off for the moving tags. *)

Module Release.

(** [[0-9]]. *)
Definition is_digit (c : ascii) : bool :=
  (48 <=? nat_of_ascii c)%nat && (nat_of_ascii c <=? 57)%nat.

(** [[.-]], which is also the [IFS] of the [read]. *)
Definition is_separator (c : ascii) : bool :=
  Ascii.eqb c "."%char || Ascii.eqb c "-"%char.

(** What is left after the longest run of digits at the start. *)
Fixpoint skip_digits (s : string) : string :=
  match s with
  | EmptyString => EmptyString
  | String c rest => if is_digit c then skip_digits rest else s
  end.

(** [[0-9]+] at the start: what is left after it, when it matches. *)
Definition match_digits (s : string) : option string :=
  match s with
  | EmptyString => None
  | String c rest => if is_digit c then Some (skip_digits rest) else None
  end.

(** [\.] at the start. *)
Definition match_dot (s : string) : option string :=
  match s with
  | EmptyString => None
  | String c rest => if Ascii.eqb c "."%char then Some rest else None
  end.

(** [[[ "$version" =~ ^[0-9]+\.[0-9]+\.[0-9]+[.-] ]]]: the value of [isPR]. *)
Definition isPR (version : string) : bool :=
  match match_digits version with
  | None => false
  | Some s1 =>
      match match_dot s1 with
      | None => false
      | Some s2 =>
          match match_digits s2 with
          | None => false
          | Some s3 =>
              match match_dot s3 with
              | None => false
              | Some s4 =>
                  match match_digits s4 with
                  | None => false
                  | Some s5 =>
                      match s5 with
                      | EmptyString => false
                      | String c _ => is_separator c
                      end
                  end
              end
          end
      end
  end.

(** The line [read] gets from the here-string: the text up to its first
    line feed. *)
Fixpoint first_line (s : string) : string :=
  match s with
  | EmptyString => EmptyString
  | String c rest =>
      if Ascii.eqb c "010"%char then EmptyString else String c (first_line rest)
  end.

(** The first field of a line under [IFS='.-'], and what follows its
    separator when there is one. *)
Fixpoint split_field (s : string) : string * option string :=
  match s with
  | EmptyString => (EmptyString, None)
  | String c rest =>
      if is_separator c then (EmptyString, Some rest)
      else match split_field rest with
           | (field, after) => (String c field, after)
           end
  end.

(** [$major] and [$minor] after
    [IFS='.-' read -r major minor patch rest <<< "$version"]. *)
Definition major (version : string) : string :=
  fst (split_field (first_line version)).

Definition minor (version : string) : string :=
  match snd (split_field (first_line version)) with
  | None => EmptyString
  | Some after => fst (split_field after)
  end.

Definition major_version (version : string) : string := major version.

Definition major_minor_version (version : string) : string :=
  major version ++ "." ++ minor version.

(** The names the script hands to [git tag -f] at lines 25 and 26, in
    order, when it gets there: none when [isPR] is 1.  Whether git takes a
    name is git's affair; under [set -e] the script stops at a name git
    refuses. *)
Definition moved_tags (version : string) : list string :=
  if isPR version then []
  else [major_version version; major_minor_version version].

(** A string of digits. *)
Fixpoint all_digits (s : string) : bool :=
  match s with
  | EmptyString => true
  | String c rest => is_digit c && all_digits rest
  end.

(** A non-empty string of digits. *)
Definition number (s : string) : bool :=
  match s with
  | EmptyString => false
  | String _ _ => all_digits s
  end.

(** A string that does not go on with a digit. *)
Definition stops (s : string) : Prop :=
  match s with
  | EmptyString => True
  | String c _ => is_digit c = false
  end.

(** No separator of the [read] and no line feed inside. *)
Fixpoint plain (s : string) : bool :=
  match s with
  | EmptyString => true
  | String c rest =>
      negb (is_separator c) && negb (Ascii.eqb c "010"%char) && plain rest
  end.

End Release.

(** A host whose executor reports a failed command the way execa does when
    the command has written to its standard streams: the message is the
    short message followed by the standard error and the standard output,
    each after an empty line.  The command [lint] fails so, every other
    command succeeds, and the working tree never changes. *)
Definition verbose_execa (cmd : string) (w : unit) : ExecaOutcome * unit :=
  if String.eqb cmd "lint" then
    (Rejected (JExecaError (Some 1%Z) None
                 ("Command failed with exit code 1: lint" ++ LF ++ LF ++ "oops"
                    ++ LF ++ LF ++ "out")
                 (JStr "out") (JStr "oops")), w)
  else (Resolved (JStr "") (JStr ""), w).

Definition verbose_host : Host := {|
  World := unit;
  decode := string_of_list_byte;
  execa := verbose_execa;
  git_hasDiff := fun w => (false, w);
  git_getChangedFiles := fun w => ([], w);
  git_diff := fun _ w => w
|}.

(** One failing command and the command-failure gate armed. *)
Definition demo_lint : Inputs := demo_inputs ["lint"] "" true true.

(** A generator leaves [out.txt] behind and the diff gate only reports. *)
Definition demo_report : Inputs := demo_inputs ["gen"; "false"] "" false false.

(** A terminal that trims spaces and marks its styles with brackets. *)
Fixpoint demo_trimStart (s : string) : string :=
  match s with
  | String c rest => if Ascii.eqb c " "%char then demo_trimStart rest else s
  | EmptyString => EmptyString
  end.

Fixpoint demo_trimEnd (s : string) : string :=
  match s with
  | EmptyString => EmptyString
  | String c rest =>
      match demo_trimEnd rest with
      | EmptyString => if Ascii.eqb c " "%char then EmptyString else String c EmptyString
      | kept => String c kept
      end
  end.

#[local] Instance demo_terminal : Terminal := {|
  trim := fun s => demo_trimStart (demo_trimEnd s);
  trimEnd := demo_trimEnd;
  cyan_bold := fun s => "<" ++ s ++ ">";
  gray_dim := fun s => "(" ++ s ++ ")"
|}.

(** ** The whole action: lines 9 to 186

    The top-level [try] prints the banner and reads the inputs before it
    runs the commands; what is thrown there reaches the same [catch]. *)

(** What reading an input gives: the value, or what [@actions/core] throws
    ([getMultilineInput] with [required] for a missing input,
    [getBooleanInput] for a value that is not a YAML boolean). *)
Inductive Read (A : Type) : Type :=
| Got (a : A)
| Threw (error : Value).

Arguments Got {A} a.
Arguments Threw {A} error.

(** What the action finds when it starts: the art [figlet.textSync] draws
    for [pkg.displayName], [pkg.version], and what each read of an input
    gives, in the order of lines 42 to 47. *)
Record Environment : Type := {
  figlet_art : string;
  pkg_version : string;
  input_run : Read (list string);
  input_fail_message : string;
  input_fail_on_command_error : Read bool;
  input_fail_on_diff : Read bool
}.

(** Lines 42 to 47: the inputs, or the first thing thrown while reading
    them. *)
Definition read_inputs (env : Environment) : Read Inputs :=
  match input_run env with
  | Threw error => Threw error
  | Got cmds =>
      match input_fail_on_command_error env with
      | Threw error => Threw error
      | Got on_error =>
          match input_fail_on_diff env with
          | Threw error => Threw error
          | Got on_diff =>
              Got {| commands := cmds;
                     fail_message := input_fail_message env;
                     failOnCommandError := on_error;
                     failOnDiff := on_diff |}
          end
      end
  end.

(** Calls to the console. *)
Definition is_console (e : Event) : bool :=
  match e with ConsoleLog _ => true | _ => false end.

Definition is_any_output (e : Event) : bool :=
  match e with SetOutput _ _ => true | _ => false end.

Section WholeAction.

Context {host : Host} {terminal : Terminal}.

(** A read inside the [try]. *)
Definition read {A} (r : Read A) : Act A :=
  match r with
  | Got a => ret a
  | Threw error => throw error
  end.

(** Lines 10 to 26.  A read outside the banner lines would throw the
    engine's [TypeError]. *)
Definition print_banner (env : Environment) : Act unit :=
  match banner (figlet_art env) (pkg_version env) with
  | Some text => emit (ConsoleLog text)
  | None =>
      throw (JError "TypeError" "Cannot read properties of undefined (reading 'trim')")
  end.

(** The body of the top-level [try], whole. *)
Definition action_body (env : Environment) : Act unit :=
  print_banner env ;;
  inp <- read (read_inputs env) ;;
  script_body inp.

(** The action: the [try] with its [catch]. *)
Definition action (env : Environment) (w : World) : RunEnd * World * list Event :=
  match action_body env w with
  | (Normal _, w1, t) => (Finished, w1, t)
  | (Exit code, w1, t) => (Exited code, w1, t)
  | (Throw error, w1, t) =>
      (Failed (failure_text error), w1, (t ++ [SetFailed (failure_text error)])%list)
  end.

End WholeAction.

(** The double quote. *)
Definition dquote : string := String "034"%char EmptyString.

(** What [getBooleanInput] throws for a value that is no YAML boolean. *)
Definition not_a_boolean (name : string) : Value :=
  JError "TypeError"
    ("Input does not meet YAML 1.2 " ++ dquote ++ "Core Schema" ++ dquote
       ++ " specification: " ++ name ++ LF
       ++ "Support boolean input list: `true | True | TRUE | false | False | FALSE`").

(** An environment whose inputs are read as the given ones. *)
Definition demo_environment (inp : Inputs) : Environment :=
  {| figlet_art := "  __ " ++ LF ++ " /_/  " ++ LF ++ "";
     pkg_version := "1.2.3";
     input_run := Got (commands inp);
     input_fail_message := fail_message inp;
     input_fail_on_command_error := Got (failOnCommandError inp);
     input_fail_on_diff := Got (failOnDiff inp) |}.

(** An environment where [fail-on-diff] is not a boolean. *)
Definition demo_bad_switch : Environment :=
  {| figlet_art := "  __ " ++ LF ++ " /_/  " ++ LF ++ "";
     pkg_version := "1.2.3";
     input_run := Got ["true"];
     input_fail_message := "";
     input_fail_on_command_error := Got false;
     input_fail_on_diff := Threw (not_a_boolean "fail-on-diff") |}.

(** ** Runs on the small host *)

Example to_String_array :
  to_String (JArr [JNum 1; JNull; JStr "a"; JArr [JBool true; JNum (-2)]]) = "1,,a,true,-2".
Proof. reflexivity. Qed.

Example to_String_error :
  to_String (JError "TypeError" "bad option") = "TypeError: bad option".
Proof. reflexivity. Qed.

Example string_of_nat_0 : string_of_nat 0 = "0".
Proof. reflexivity. Qed.

Example normalizeOutput_lines :
  normalizeOutput (JArr [JStr "a"; JStr "b"]) = "a" ++ LF ++ "b".
Proof. reflexivity. Qed.

Example runCommands_spec_example :
  match runCommands ["false"; "true"; "exit 2"] [] with
  | (Normal results, _, t) =>
      map ok results = [false; true; false]
      /\ t = [Execa "false"; Execa "true"; Execa "exit 2"]
  | _ => False
  end.
Proof. vm_compute. split; reflexivity. Qed.

Example run_clean_tree :
  run (demo_inputs ["true"] "" true true) []
  = (Exited 0, [],
     [StartGroup "Running commands"; Execa "true"; EndGroup;
      SetOutput "command_failures" "0"] ++ clean_report)%list.
Proof. reflexivity. Qed.

Example run_stale_tree :
  run (demo_inputs ["gen"; "false"] "stale" false true) []
  = (Failed "Error: stale", ["out.txt"],
     [StartGroup "Running commands"; Execa "gen"; Execa "false"; EndGroup;
      SetOutput "command_failures" "1";
      StartGroup "Command failures";
      Warning "Command failed: false"; Warning "Exit code: 1";
      EndGroup]
     ++ diff_report (demo_inputs ["gen"; "false"] "stale" false true) ["out.txt"]
     ++ [SetFailed "Error: stale"])%list.
Proof. reflexivity. Qed.

(** ** Properties of the script *)

Section Properties.

Context {host : Host}.

(** *** Strings and lists *)

Lemma truthy_nonempty s : truthy s = true <-> s <> "".
Proof.
  unfold truthy. rewrite negb_true_iff. apply String.eqb_neq.
Qed.

(** Joining lines with a line feed after a header puts every line behind a
    line feed of its own. *)
Lemma join_lines {A} (g : A -> string) (xs : list A) :
  xs <> [] ->
  LF ++ join LF (map g xs) = String.concat "" (map (fun x => LF ++ g x) xs).
Proof.
  induction xs as [|x rest IH]; [congruence|]. intros _.
  destruct rest as [|y rest'].
  - reflexivity.
  - assert (Hne : y :: rest' <> []) by discriminate.
    specialize (IH Hne). unfold join in *.
    change (String.concat LF (map g (x :: y :: rest')))
      with (g x ++ LF ++ String.concat LF (map g (y :: rest'))).
    change (String.concat "" (map (fun x0 => LF ++ g x0) (x :: y :: rest')))
      with ((LF ++ g x) ++ "" ++ String.concat "" (map (fun x0 => LF ++ g x0) (y :: rest'))).
    rewrite <- IH. reflexivity.
Qed.

Lemma lines_one_line text rest :
  one_line text = true -> lines (text ++ LF ++ rest) = text :: lines rest.
Proof.
  induction text as [|c text IH]; intros H; [reflexivity|].
  cbn in H. apply andb_true_iff in H. destruct H as [Hc Ht].
  rewrite negb_true_iff in Hc.
  change (lines (String c text ++ LF ++ rest))
    with (if Ascii.eqb c "010"%char then "" :: lines (text ++ LF ++ rest)
          else match lines (text ++ LF ++ rest) with
               | [] => [String c ""]
               | first :: others => String c first :: others
               end).
  rewrite Hc, (IH Ht). reflexivity.
Qed.

Lemma lines_last text : one_line text = true -> lines text = [text].
Proof.
  induction text as [|c text IH]; intros H; [reflexivity|].
  cbn in H. apply andb_true_iff in H. destruct H as [Hc Ht].
  cbn [lines]. rewrite negb_true_iff in Hc. rewrite Hc, (IH Ht). reflexivity.
Qed.

(** Lines joined with line feeds are found again by splitting at them. *)
Lemma lines_join (ls : list string) :
  ls <> [] -> forallb one_line ls = true -> lines (join LF ls) = ls.
Proof.
  induction ls as [|l rest IH]; [congruence|]. intros _ H.
  cbn in H. apply andb_true_iff in H. destruct H as [Hl Hrest].
  destruct rest as [|l' rest'].
  - apply lines_last, Hl.
  - unfold join in *.
    change (String.concat LF (l :: l' :: rest'))
      with (l ++ LF ++ String.concat LF (l' :: rest')).
    rewrite (lines_one_line _ _ Hl), IH; [reflexivity|discriminate|exact Hrest].
Qed.

Lemma triple_eq {A B C} (a a' : A) (b b' : B) (c c' : C) :
  (a, b, c) = (a', b', c') -> a' = a /\ b' = b /\ c' = c.
Proof. intros H. injection H as <- <- <-. auto. Qed.

Lemma before_diff_gate_In (t : list Event) (e : Event) :
  forallb before_diff_gate t = true -> In e t -> before_diff_gate e = true.
Proof.
  intros Hall Hin. rewrite forallb_forall in Hall. auto.
Qed.

(** *** One command *)

Lemma runCommand_resolved cmd w out err w1 :
  execa cmd w = (Resolved out err, w1) ->
  runCommand cmd w
  = (Normal {| command := cmd; ok := true;
               stdout := normalizeOutput out; stderr := normalizeOutput err;
               exitCode := None; signal := None; message := None |},
     w1, [Execa cmd]).
Proof.
  intros H. unfold runCommand, try_catch, bind, call_execa, ret.
  rewrite H. reflexivity.
Qed.

Lemma runCommand_rejected cmd w e w1 :
  execa cmd w = (Rejected e, w1) ->
  runCommand cmd w
  = (Normal (match e with
             | JExecaError code sig msg out err =>
                 {| command := cmd; ok := false;
                    stdout := normalizeOutput out; stderr := normalizeOutput err;
                    exitCode := code; signal := sig; message := Some msg |}
             | _ =>
                 {| command := cmd; ok := false; stdout := ""; stderr := "";
                    exitCode := None; signal := None;
                    message := Some (to_String e) |}
             end),
     w1, [Execa cmd]).
Proof.
  intros H. unfold runCommand, try_catch, bind, call_execa, ret.
  rewrite H. destruct e; reflexivity.
Qed.

(** [runCommand] returns, whatever the executor does, with the executor's
    world and the one call to it in the trace. *)
Lemma runCommand_returns cmd w :
  exists r, runCommand cmd w = (Normal r, snd (execa cmd w), [Execa cmd])
            /\ command r = cmd
            /\ (ok r = true -> message r = None /\ exitCode r = None /\ signal r = None)
            /\ (ok r = false -> exists m, message r = Some m).
Proof.
  destruct (execa cmd w) as [[out err|e] w1] eqn:H.
  - eexists. split; [apply (runCommand_resolved _ _ _ _ _ H)|].
    cbn. repeat split; intros; try discriminate; auto.
  - eexists. split; [apply (runCommand_rejected _ _ _ _ H)|].
    destruct e; cbn; repeat split; intros; try discriminate; eauto.
Qed.

(** *** The pipeline *)

Lemma runCommands_from_run cmds : forall acc w,
  exists results w1,
    runCommands_from acc cmds w = (Normal (acc ++ results)%list, w1, map Execa cmds)
    /\ pipeline w cmds results w1.
Proof.
  induction cmds as [|cmd rest IH]; intros acc w.
  - exists [], w. cbn. rewrite app_nil_r. split; [reflexivity|constructor].
  - destruct (runCommand_returns cmd w) as (r & Hr & _).
    destruct (IH (acc ++ [r])%list (snd (execa cmd w))) as (rs & w1 & Hrs & Hp).
    exists (r :: rs), w1. split.
    + cbn [runCommands_from]. unfold bind. rewrite Hr, Hrs.
      rewrite <- app_assoc. reflexivity.
    + econstructor; eassumption.
Qed.

Lemma pipeline_commands w cmds results w1 :
  pipeline w cmds results w1 -> map command results = cmds.
Proof.
  induction 1 as [|w cmd r w1 rest results w2 Hr _ IH]; [reflexivity|].
  destruct (runCommand_returns cmd w) as (r' & Hr' & Hc & _).
  rewrite Hr in Hr'. injection Hr' as ->. cbn. congruence.
Qed.

Lemma pipeline_length w cmds results w1 :
  pipeline w cmds results w1 -> length results = length cmds.
Proof.
  intros H. rewrite <- (pipeline_commands _ _ _ _ H). symmetry. apply length_map.
Qed.

Lemma pipeline_messages w cmds results w1 :
  pipeline w cmds results w1 ->
  Forall (fun r => ok r = false -> exists m, message r = Some m) results.
Proof.
  induction 1 as [|w cmd r w1 rest results w2 Hr _ IH]; constructor; [|exact IH].
  destruct (runCommand_returns cmd w) as (r' & Hr' & _ & _ & Hm).
  rewrite Hr in Hr'. injection Hr' as ->. exact Hm.
Qed.

Lemma pipeline_deterministic w cmds results w1 :
  pipeline w cmds results w1 ->
  forall results' w1', pipeline w cmds results' w1' -> results' = results /\ w1' = w1.
Proof.
  induction 1 as [|w cmd r w1 rest results w2 Hr _ IH]; intros results' w1' H'.
  - inversion H'; subst. auto.
  - inversion H' as [|? ? r' wa ? rs' ? Hr' Hrest]; subst.
    rewrite Hr in Hr'. injection Hr' as <- <-.
    destruct (IH _ _ Hrest) as [-> ->]. auto.
Qed.

(** *** The gates *)

Lemma report_failure_run f w :
  exists t, report_failure f w = (Normal tt, w, t)
            /\ forallb before_diff_gate t = true.
Proof.
  unfold report_failure, when, bind, emit, ret.
  destruct (exitCode f), (truthy (stderr f)); eexists; split; reflexivity.
Qed.

Lemma report_failures_run fs : forall w,
  exists t, for_of fs report_failure w = (Normal tt, w, t)
            /\ forallb before_diff_gate t = true.
Proof.
  induction fs as [|f rest IH]; intros w.
  - exists []. split; reflexivity.
  - destruct (report_failure_run f w) as (t1 & H1 & A1).
    destruct (IH w) as (t2 & H2 & A2).
    exists (t1 ++ t2)%list. split.
    + cbn [for_of]. unfold bind. rewrite H1, H2. reflexivity.
    + rewrite forallb_app, A1, A2. reflexivity.
Qed.

(** The command-failure gate throws exactly when the switch is on and some
    command failed; all its calls go to the reporting sink. *)
Lemma command_gate_run inp results w :
  exists t,
    forallb before_diff_gate t = true
    /\ command_gate inp results w
       = (match failures_of results with
          | [] => Normal tt
          | _ :: _ =>
              if failOnCommandError inp
              then Throw (JError "Error" (command_error_message (failures_of results)))
              else Normal tt
          end, w, t).
Proof.
  unfold command_gate.
  destruct (failures_of results) as [|f fs] eqn:Hf.
  - eexists. split; [|reflexivity]. reflexivity.
  - destruct (report_failures_run (f :: fs) w) as (t & Ht & At).
    unfold when, bind, emit, ret, throw. cbn [length Nat.ltb Nat.leb].
    rewrite Ht. destruct (failOnCommandError inp); eexists; (split; [|reflexivity]);
      cbn [forallb before_diff_gate String.eqb app andb];
      rewrite forallb_app, At; reflexivity.
Qed.

Lemma log_files_run files : forall w,
  for_of files (fun f => emit (ConsoleLog ("- " ++ f))) w
  = (Normal tt, w, map (fun f => ConsoleLog ("- " ++ f)) files).
Proof.
  induction files as [|f rest IH]; intros w; [reflexivity|].
  cbn [for_of]. unfold bind, emit. rewrite IH. reflexivity.
Qed.

(** The diff gate, by what the inspector answers. *)
Lemma diff_gate_clean inp w w1 :
  git_hasDiff w = (false, w1) ->
  diff_gate inp w = (Exit 0, w1, clean_report).
Proof.
  intros H. unfold diff_gate, call_hasDiff, when, bind, emit, process_exit.
  rewrite H. reflexivity.
Qed.

Lemma diff_gate_changed inp w w1 files w2 :
  git_hasDiff w = (true, w1) ->
  git_getChangedFiles w1 = (files, w2) ->
  diff_gate inp w
  = (if failOnDiff inp
     then Throw (JError "Error" (failMessage (fail_message inp)))
     else Normal tt,
     git_diff files w2, diff_report inp files).
Proof.
  intros H1 H2.
  unfold diff_gate, call_hasDiff, call_getChangedFiles, call_diff, when, bind.
  rewrite H1. cbn. rewrite H2. unfold emit. cbn. rewrite log_files_run.
  unfold diff_report.
  destruct (failOnDiff inp); cbn; rewrite ?app_nil_r; reflexivity.
Qed.

(** *** The whole run *)

Lemma script_body_abort inp w results w1 gate e :
  runCommands (commands inp) w = (Normal results, w1, map Execa (commands inp)) ->
  command_gate inp results w1 = (Throw e, w1, gate) ->
  script_body inp w
  = (Throw e, w1,
     (StartGroup "Running commands" :: map Execa (commands inp) ++ EndGroup :: gate)%list).
Proof.
  intros Hrun Hgate. unfold script_body, bind, emit. rewrite Hrun, Hgate.
  reflexivity.
Qed.

Lemma script_body_continue inp w results w1 gate :
  runCommands (commands inp) w = (Normal results, w1, map Execa (commands inp)) ->
  command_gate inp results w1 = (Normal tt, w1, gate) ->
  script_body inp w
  = match diff_gate inp w1 with
    | (c, w2, t2) =>
        (c, w2,
         ((StartGroup "Running commands" :: map Execa (commands inp) ++ EndGroup :: gate)
            ++ t2)%list)
    end.
Proof.
  intros Hrun Hgate. unfold script_body, bind, emit. rewrite Hrun, Hgate.
  destruct (diff_gate inp w1) as [[c w2] t2]. cbn.
  rewrite <- !app_assoc. reflexivity.
Qed.

Lemma run_after_gate inp w results w1 gate :
  runCommands (commands inp) w = (Normal results, w1, map Execa (commands inp)) ->
  command_gate inp results w1 = (Normal tt, w1, gate) ->
  run inp w
  = match diff_gate inp w1 with
    | (Normal _, w2, t2) =>
        (Finished, w2,
         ((StartGroup "Running commands" :: map Execa (commands inp) ++ EndGroup :: gate)
            ++ t2)%list)
    | (Exit code, w2, t2) =>
        (Exited code, w2,
         ((StartGroup "Running commands" :: map Execa (commands inp) ++ EndGroup :: gate)
            ++ t2)%list)
    | (Throw e, w2, t2) =>
        (Failed (failure_text e), w2,
         (((StartGroup "Running commands" :: map Execa (commands inp) ++ EndGroup :: gate)
             ++ t2) ++ [SetFailed (failure_text e)])%list)
    end.
Proof.
  intros Hrun Hn. unfold run. rewrite (script_body_continue _ _ _ _ _ Hrun Hn).
  destruct (diff_gate inp w1) as [[[u|e|code] w2] t2]; reflexivity.
Qed.

(** The three ways a run goes.  [gate] is what the command-failure gate
    reports; the calls before the diff gate are the same in all three. *)
Lemma run_outline inp w :
  exists results w1 gate,
    runCommands (commands inp) w = (Normal results, w1, map Execa (commands inp))
    /\ pipeline w (commands inp) results w1
    /\ forallb before_diff_gate gate = true
    /\ forall pre,
        pre = (StartGroup "Running commands" :: map Execa (commands inp)
                 ++ EndGroup :: gate)%list ->
        (failOnCommandError inp = true /\ failures_of results <> []
         /\ run inp w
            = (Failed ("Error: " ++ command_error_message (failures_of results)), w1,
               (pre ++ [SetFailed ("Error: "
                                   ++ command_error_message (failures_of results))])%list))
        \/ ((failOnCommandError inp = false \/ failures_of results = [])
            /\ exists w2, git_hasDiff w1 = (false, w2)
                          /\ run inp w = (Exited 0, w2, (pre ++ clean_report)%list))
        \/ ((failOnCommandError inp = false \/ failures_of results = [])
            /\ exists w2 files w3,
                git_hasDiff w1 = (true, w2)
                /\ git_getChangedFiles w2 = (files, w3)
                /\ run inp w
                   = (if failOnDiff inp
                      then Failed ("Error: " ++ failMessage (fail_message inp))
                      else Finished,
                      git_diff files w3,
                      (pre ++ diff_report inp files
                         ++ if failOnDiff inp
                            then [SetFailed ("Error: " ++ failMessage (fail_message inp))]
                            else [])%list)).
Proof.
  destruct (runCommands_from_run (commands inp) [] w) as (results & w1 & Hrun & Hpipe).
  cbn [app] in Hrun. fold (runCommands (commands inp)) in Hrun.
  destruct (command_gate_run inp results w1) as (gate & Hgate & Hcg).
  exists results, w1, gate. repeat (split; [assumption|]).
  intros pre ->.
  match goal with
  | |- _ \/ ?B =>
      assert (Hcont : command_gate inp results w1 = (Normal tt, w1, gate) ->
                      failOnCommandError inp = false \/ failures_of results = [] -> B)
  end.
  { intros Hn Hor. pose proof (run_after_gate _ _ _ _ _ Hrun Hn) as Hr.
    destruct (git_hasDiff w1) as [[|] w2] eqn:Hd.
    - right. split; [exact Hor|].
      destruct (git_getChangedFiles w2) as [files w3] eqn:Hc.
      exists w2, files, w3. split; [reflexivity|]. split; [exact Hc|].
      rewrite Hr, (diff_gate_changed _ _ _ _ _ Hd Hc).
      destruct (failOnDiff inp).
      + rewrite <- app_assoc. reflexivity.
      + rewrite app_nil_r. reflexivity.
    - left. split; [exact Hor|]. exists w2. split; [reflexivity|].
      rewrite Hr, (diff_gate_clean _ _ _ Hd). reflexivity. }
  destruct (failures_of results) as [|f fs] eqn:Hf.
  - right. apply Hcont; auto.
  - destruct (failOnCommandError inp) eqn:Hsw.
    + left. repeat (split; [congruence|]).
      unfold run. rewrite (script_body_abort _ _ _ _ _ _ Hrun Hcg). reflexivity.
    + right. apply Hcont; auto.
Qed.

Lemma not_In_before_gate (t : list Event) (e : Event) :
  forallb before_diff_gate t = true -> before_diff_gate e = false -> ~ In e t.
Proof.
  intros Hall He Hin. rewrite (before_diff_gate_In _ _ Hall Hin) in He. discriminate.
Qed.

End Properties.

(** Membership in a trace made of the pieces above, taken apart. *)
Ltac split_In H :=
  repeat match type of H with
    | In _ (_ ++ _)%list => apply in_app_or in H; destruct H as [H|H]
    | In _ (_ :: _) => apply in_inv in H; destruct H as [H|H]
    | In _ [] => destruct (in_nil H)
    | In _ (if ?b then _ else _) => destruct b
    | In _ (map _ _) => apply in_map_iff in H; destruct H as (? & H & _)
    | In _ (diff_report _ _) => unfold diff_report in H
    | In _ clean_report => unfold clean_report in H
    end.

(** An event that the calls before the diff gate cannot contain. *)
Ltac not_before_gate Hpre H :=
  exfalso; revert H; apply (not_In_before_gate _ _ Hpre); reflexivity.

Section Claims.

Context {host : Host}.

(** C1. For a list of N commands [runCommands] returns N results, the i-th
    one being the result of [runCommand] on the i-th command (run in the
    world the commands before it left), and the executor is called once for
    every command, in order, whatever the earlier results were: there is no
    short-circuit. *)
Theorem runCommands_one_result_per_command (cmds : list string) (w : World) :
  exists results w1,
    runCommands cmds w = (Normal results, w1, map Execa cmds)
    /\ length results = length cmds
    /\ map command results = cmds
    /\ pipeline w cmds results w1.
Proof.
  destruct (runCommands_from_run cmds [] w) as (results & w1 & Hrun & Hp).
  exists results, w1. split; [exact Hrun|].
  split; [exact (pipeline_length _ _ _ _ Hp)|].
  split; [exact (pipeline_commands _ _ _ _ Hp)|exact Hp].
Qed.

(** C2. Every result of [runCommand] satisfies the invariant of the data
    model: with [ok] true, [exitCode], [signal] and [message] are absent;
    with [ok] false at least one of them is present. *)
Theorem runCommand_result_invariant (cmd : string) (w : World) :
  exists r w1 t, runCommand cmd w = (Normal r, w1, t) /\ result_invariant r.
Proof.
  destruct (runCommand_returns cmd w) as (r & Hr & _ & Htrue & Hfalse).
  exists r, (snd (execa cmd w)), [Execa cmd]. split; [exact Hr|].
  split.
  - intros Hok. destruct (Htrue Hok) as (Hm & Hc & Hs). repeat split; assumption.
  - intros Hok. destruct (Hfalse Hok) as (m & Hm). right. right.
    unfold present. rewrite Hm. discriminate.
Qed.

(** C3. [runCommand] never throws: whatever the executor does with the
    command, it returns a result.  When the executor throws, [ok] is false;
    when what it throws is not an [ExecaError], only [message] is set, to the
    thrown value made a string, [exitCode] and [signal] are absent and
    [stdout] and [stderr] are empty. *)
Theorem runCommand_never_throws (cmd : string) (w : World) :
  exists r,
    runCommand cmd w = (Normal r, snd (execa cmd w), [Execa cmd])
    /\ match fst (execa cmd w) with
       | Resolved _ _ => ok r = true
       | Rejected e =>
           ok r = false
           /\ if instanceof_ExecaError e
              then message r = Some (error_message e)
              else message r = Some (to_String e)
                   /\ exitCode r = None /\ signal r = None
                   /\ stdout r = "" /\ stderr r = ""
       end.
Proof.
  destruct (execa cmd w) as [[out err|e] w1] eqn:H.
  - eexists. split; [apply (runCommand_resolved _ _ _ _ _ H)|reflexivity].
  - eexists. split; [apply (runCommand_rejected _ _ _ _ H)|].
    destruct e; cbn; repeat split; reflexivity.
Qed.

(** C7. [normalizeOutput] is defined on every value: a string is returned as
    it is, an array is its elements joined with line feeds (for an array of
    strings, the strings themselves), a byte buffer is decoded, and every
    other value, [undefined] among them, gives the empty string. *)
Theorem normalizeOutput_cases :
  (forall s, normalizeOutput (JStr s) = s)
  /\ (forall elements,
        normalizeOutput (JArr elements) = join LF (map element_String elements))
  /\ (forall chunks : list string, normalizeOutput (JArr (map JStr chunks)) = join LF chunks)
  /\ (forall bytes, normalizeOutput (JBytes bytes) = decode bytes)
  /\ (forall value,
        match value with
        | JStr _ | JArr _ | JBytes _ => True
        | _ => normalizeOutput value = ""
        end)
  /\ normalizeOutput JUndefined = ""
  /\ (forall value, exists s, normalizeOutput value = s).
Proof.
  repeat split.
  - intros chunks. cbn. unfold array_join. f_equal.
    rewrite map_map. cbn. apply map_id.
  - intros value. destruct value; exact I || reflexivity.
  - intros value. eexists. reflexivity.
Qed.

(** C8. [normalizeOutput] is idempotent: normalizing its own output changes
    nothing. *)
Theorem normalizeOutput_idempotent (value : Value) :
  normalizeOutput (JStr (normalizeOutput value)) = normalizeOutput value.
Proof.
  generalize (normalizeOutput value). intros s.
  cbn [normalizeOutput]. reflexivity.
Qed.

(** C10. A result of [runCommand] with [ok] false always has its [message]:
    the executor failed, and the message is the error's own for an
    [ExecaError] and the thrown value made a string otherwise. *)
Theorem failed_result_has_message (cmd : string) (w : World) :
  exists r w1 t,
    runCommand cmd w = (Normal r, w1, t)
    /\ (ok r = false ->
        exists e, fst (execa cmd w) = Rejected e
                  /\ message r = Some (if instanceof_ExecaError e
                                       then error_message e
                                       else to_String e)).
Proof.
  destruct (execa cmd w) as [[out err|e] w1] eqn:H.
  - do 3 eexists. split; [apply (runCommand_resolved _ _ _ _ _ H)|].
    cbn. discriminate.
  - do 3 eexists. split; [apply (runCommand_rejected _ _ _ _ H)|].
    intros _. exists e. split; [reflexivity|]. destruct e; reflexivity.
Qed.

(** C4, as amended.  When the inspector has reported changes and
    [failOnDiff] is on, the run ends in a failure reported to the CI sink;
    the text attached is ["Error: "] followed by the effective fail message,
    which is the configured text, or the built-in one when the configured
    text is empty.  It is the last call of the run and the exit status is 1. *)
Theorem diff_failure_message (inp : Inputs) (w : World)
    (e : RunEnd) (w' : World) (t : list Event) :
  run inp w = (e, w', t) ->
  In (GitHasDiff true) t ->
  failOnDiff inp = true ->
  e = Failed ("Error: " ++ failMessage (fail_message inp))
  /\ exit_status e = 1%Z
  /\ (exists before,
        t = (before ++ [SetFailed ("Error: " ++ failMessage (fail_message inp))])%list)
  /\ failMessage (fail_message inp)
     = if String.eqb (fail_message inp) "" then default_fail_message else fail_message inp.
Proof.
  intros Hrun Hin Hsw.
  destruct (run_outline inp w) as (results & w1 & gate & _ & _ & Hgate & Hcases).
  destruct (Hcases _ eq_refl)
    as [(_ & _ & Hr)|[(_ & w2 & _ & Hr)|(_ & w2 & files & w3 & _ & _ & Hr)]];
    rewrite Hr in Hrun; clear Hr.
  - apply triple_eq in Hrun; destruct Hrun as (-> & -> & ->).
    split_In Hin; try discriminate. not_before_gate Hgate Hin.
  - apply triple_eq in Hrun; destruct Hrun as (-> & -> & ->).
    split_In Hin; try discriminate. not_before_gate Hgate Hin.
  - rewrite Hsw in Hrun. apply triple_eq in Hrun; destruct Hrun as (-> & -> & ->).
    split; [reflexivity|]. split; [reflexivity|]. split.
    + eexists. apply app_assoc.
    + unfold failMessage, truthy. destruct (String.eqb (fail_message inp) ""); reflexivity.
Qed.

(** C5, as amended.  When [failOnCommandError] is on and some command has
    failed, the run ends in a failure reported to the CI sink before the diff
    gate is entered: the inspector is never asked and [has_diff] is never
    set.  The text attached is the header with the number of failures,
    followed, for every failed command in order, by a line feed and an entry
    made of its command text, its exit code ([null] when it has none) and its
    failure message, which every failed command has.  Every entry starts on a
    line of its own; only when no entry has a line feed inside are the lines
    after the header exactly the entries. *)
Theorem command_error_gate_aborts (inp : Inputs) (w : World)
    (results : list CommandResult) (w1 : World) (t1 : list Event) :
  runCommands (commands inp) w = (Normal results, w1, t1) ->
  failOnCommandError inp = true ->
  (exists r, In r results /\ ok r = false) ->
  exists text t,
    run inp w = (Failed text, w1, t)
    /\ text
       = "Error: Command execution failed ("
           ++ string_of_nat (length (filter (fun r => negb (ok r)) results))
           ++ " failures):"
           ++ String.concat ""
                (map (fun f => LF ++ "- " ++ command f
                                  ++ " (exit code: "
                                  ++ match exitCode f with
                                     | Some code => string_of_Z code
                                     | None => "null"
                                     end
                                  ++ "): "
                                  ++ match message f with
                                     | Some m => m
                                     | None => "undefined"
                                     end)
                     (filter (fun r => negb (ok r)) results))
    /\ Forall (fun f => exists m, message f = Some m)
              (filter (fun r => negb (ok r)) results)
    /\ (forallb (fun f => one_line
                            ("- " ++ command f
                               ++ " (exit code: "
                               ++ match exitCode f with
                                  | Some code => string_of_Z code
                                  | None => "null"
                                  end
                               ++ "): "
                               ++ match message f with
                                  | Some m => m
                                  | None => "undefined"
                                  end))
                (filter (fun r => negb (ok r)) results) = true ->
        exists body,
          text = "Error: Command execution failed ("
                   ++ string_of_nat (length (filter (fun r => negb (ok r)) results))
                   ++ " failures):" ++ LF ++ body
          /\ lines body
             = map (fun f => "- " ++ command f
                               ++ " (exit code: "
                               ++ match exitCode f with
                                  | Some code => string_of_Z code
                                  | None => "null"
                                  end
                               ++ "): "
                               ++ match message f with
                                  | Some m => m
                                  | None => "undefined"
                                  end)
                   (filter (fun r => negb (ok r)) results))
    /\ (exists before, t = (before ++ [SetFailed text])%list)
    /\ (forall answer, ~ In (GitHasDiff answer) t)
    /\ (forall value, ~ In (SetOutput "has_diff" value) t).
Proof.
  intros Hres Hsw (r0 & Hin0 & Hok0).
  destruct (run_outline inp w) as (results' & w1' & gate & Hres' & Hpipe & Hgate & Hcases).
  rewrite Hres in Hres'. injection Hres' as <- <- _.
  fold (failures_of results).
  assert (Hfilter : forall f, In f (failures_of results) <-> In f results /\ ok f = false).
  { intros f. unfold failures_of. rewrite filter_In, negb_true_iff. reflexivity. }
  assert (Hne : failures_of results <> []).
  { intros Hnil. assert (Hin : In r0 (failures_of results)) by (apply Hfilter; auto).
    rewrite Hnil in Hin. destruct Hin. }
  destruct (Hcases _ eq_refl) as [(_ & _ & Hr)|[([Hoff|Hnil] & _)|([Hoff|Hnil] & _)]];
    try congruence.
  do 2 eexists. split; [exact Hr|].
  split.
  { unfold command_error_message. rewrite (join_lines failure_line _ Hne). reflexivity. }
  split.
  { apply Forall_forall. intros f Hf. apply Hfilter in Hf. destruct Hf as [Hf Hok].
    pose proof (pipeline_messages _ _ _ _ Hpipe) as Hall.
    rewrite Forall_forall in Hall. exact (Hall f Hf Hok). }
  split.
  { intros Hone. exists (join LF (map failure_line (failures_of results))).
    split; [reflexivity|].
    change (lines (join LF (map failure_line (failures_of results)))
            = map failure_line (failures_of results)).
    apply lines_join.
    - destruct (failures_of results); [congruence|discriminate].
    - rewrite forallb_forall in Hone. apply forallb_forall.
      intros l Hl. apply in_map_iff in Hl. destruct Hl as (f & <- & Hf).
      exact (Hone f Hf). }
  split; [eexists; reflexivity|].
  split.
  - intros answer Hin. split_In Hin; try discriminate. not_before_gate Hgate Hin.
  - intros value Hin. split_In Hin; try discriminate. not_before_gate Hgate Hin.
Qed.

(** C6. When the inspector has reported no changes, the run is ended by
    [process.exit(0)] right after the clean notice and the short summary,
    which are its last calls, and the outputs [changed_files] and
    [diff_count] are never set. *)
Theorem clean_tree_exits_early (inp : Inputs) (w : World)
    (e : RunEnd) (w' : World) (t : list Event) :
  run inp w = (e, w', t) ->
  In (GitHasDiff false) t ->
  e = Exited 0
  /\ exit_status e = 0%Z
  /\ (exists before,
        t = (before ++ [GitHasDiff false;
                        SetOutput "has_diff" "false";
                        Notice "Working tree is clean";
                        SummaryWrite [Heading "Diff Sentinel" None;
                                      Raw ("No uncommitted changes detected" ++ LF)]])%list)
  /\ (forall value, ~ In (SetOutput "changed_files" value) t)
  /\ (forall value, ~ In (SetOutput "diff_count" value) t)
  /\ (forall text, ~ In (SetFailed text) t).
Proof.
  intros Hrun Hin.
  destruct (run_outline inp w) as (results & w1 & gate & _ & _ & Hgate & Hcases).
  destruct (Hcases _ eq_refl)
    as [(_ & _ & Hr)|[(_ & w2 & _ & Hr)|(_ & w2 & files & w3 & _ & _ & Hr)]];
    rewrite Hr in Hrun; clear Hr; apply triple_eq in Hrun; destruct Hrun as (-> & -> & ->).
  - split_In Hin; try discriminate. not_before_gate Hgate Hin.
  - split; [reflexivity|]. split; [reflexivity|]. split; [eexists; reflexivity|].
    repeat split; intros x Hx; split_In Hx; try discriminate; not_before_gate Hgate Hx.
  - split_In Hin; try discriminate; not_before_gate Hgate Hin.
Qed.

(** C9. With an empty [fail-message] input the effective fail message is the
    built-in text, and the effective fail message is never empty.  It is what
    the failure summary shows and what the diff gate fails with. *)
Theorem failMessage_default :
  failMessage "" = "Generated or formatted files are out of date."
  /\ (forall input, failMessage input <> "")
  /\ (forall inp w e w' t,
        run inp w = (e, w', t) ->
        fail_message inp = "" ->
        In (GitHasDiff true) t ->
        (exists files,
            In (SummaryWrite
                  [Heading "Diff Sentinel Failed" (Some 1);
                   Raw ("Generated or formatted files are out of date." ++ LF);
                   Heading "Changed files" (Some 3);
                   ItemList files;
                   Heading "How to fix" (Some 3);
                   CodeBlock (join LF (commands inp)) "bash"]) t)
        /\ (failOnDiff inp = true ->
            e = Failed "Error: Generated or formatted files are out of date.")).
Proof.
  split; [reflexivity|]. split.
  - intros input. unfold failMessage.
    destruct (truthy input) eqn:Ht; [apply truthy_nonempty, Ht|discriminate].
  - intros inp w e w' t Hrun Hempty Hin.
    destruct (run_outline inp w) as (results & w1 & gate & _ & _ & Hgate & Hcases).
      destruct (Hcases _ eq_refl)
      as [(_ & _ & Hr)|[(_ & w2 & _ & Hr)|(_ & w2 & files & w3 & _ & _ & Hr)]];
      rewrite Hr in Hrun; clear Hr; apply triple_eq in Hrun; destruct Hrun as (-> & -> & ->).
    + split_In Hin; try discriminate. not_before_gate Hgate Hin.
    + split_In Hin; try discriminate. not_before_gate Hgate Hin.
    + split.
      * exists files. apply in_or_app. right. apply in_or_app. left.
        unfold diff_report. rewrite Hempty. apply in_or_app. right.
        apply in_or_app. right. cbn. auto 10.
      * intros ->. rewrite Hempty. reflexivity.
Qed.

End Claims.

(** ** The claims on the small host *)

(** C4 as the specification words it does not hold: the text attached to the
    failure is not the configured text alone. *)
Lemma diff_failure_text_not_verbatim :
  exists w' t,
    run demo_stale [] = (Failed "Error: stale", w', t)
    /\ In (GitHasDiff true) t
    /\ failOnDiff demo_stale = true
    /\ fail_message demo_stale = "stale"
    /\ Failed "Error: stale" <> Failed (fail_message demo_stale).
Proof.
  do 2 eexists. split; [vm_compute; reflexivity|].
  split; [cbn; tauto|]. split; [reflexivity|]. split; [reflexivity|].
  cbn. discriminate.
Qed.

(** C5 as the specification words it does not hold: with the message
    execa gives a failed command that wrote to its standard streams, the one
    failed command takes five lines of the text after the header. *)
Lemma command_error_text_spans_lines :
  exists text t,
    run (host := verbose_host) demo_lint tt = (Failed text, tt, t)
    /\ failOnCommandError demo_lint = true
    /\ filter (is_output "command_failures") t = [SetOutput "command_failures" "1"]
    /\ lines text
       = ["Error: Command execution failed (1 failures):";
          "- lint (exit code: 1): Command failed with exit code 1: lint";
          ""; "oops"; ""; "out"]
    /\ length (lines text) <> 1 + 1.
Proof.
  do 2 eexists. split; [vm_compute; reflexivity|].
  split; [reflexivity|]. split; [reflexivity|]. split; [reflexivity|].
  cbn. discriminate.
Qed.

Lemma diff_failure_message_witness :
  In (GitHasDiff true) (snd (run demo_stale []))
  /\ failOnDiff demo_stale = true
  /\ fst (fst (run demo_stale [])) = Failed "Error: stale"
  /\ exit_status (fst (fst (run demo_stale []))) = 1%Z.
Proof.
  assert (Hin : In (GitHasDiff true) (snd (run demo_stale []))) by (vm_compute; tauto).
  split; [exact Hin|]. split; [reflexivity|].
  destruct (diff_failure_message (host := demo_host) demo_stale [] _ _ _ eq_refl Hin eq_refl)
    as (He & Hs & _).
  split; [exact He|exact Hs].
Defined.

Lemma command_error_gate_aborts_witness :
  failOnCommandError demo_failing = true
  /\ (exists r, In r demo_failing_results /\ ok r = false)
  /\ exists text t,
      run demo_failing [] = (Failed text, ["out.txt"], t)
      /\ text
         = "Error: Command execution failed (3 failures):" ++ LF
             ++ "- false (exit code: 1): Command failed with exit code 1: false" ++ LF
             ++ "-  (exit code: null): TypeError: Command must not be empty" ++ LF
             ++ "- kill (exit code: null): Command was killed with SIGTERM: kill"
      /\ (forall answer, ~ In (GitHasDiff answer) t)
      /\ (forall value, ~ In (SetOutput "has_diff" value) t).
Proof.
  assert (Hfail : exists r, In r demo_failing_results /\ ok r = false).
  { exists {| command := "false"; ok := false; stdout := ""; stderr := "";
              exitCode := Some 1%Z; signal := None;
              message := Some "Command failed with exit code 1: false" |}.
    split; [vm_compute; tauto|reflexivity]. }
  split; [reflexivity|]. split; [exact Hfail|].
  destruct (command_error_gate_aborts (host := demo_host) demo_failing []
              demo_failing_results ["out.txt"]
              (map Execa (commands demo_failing)) eq_refl eq_refl Hfail)
    as (text & t & Hrun & Htext & _ & _ & _ & Hdiff & Hout).
  exists text, t. split; [exact Hrun|].
  split; [rewrite Htext; reflexivity|]. split; [exact Hdiff|exact Hout].
Defined.

Lemma clean_tree_exits_early_witness :
  In (GitHasDiff false) (snd (run demo_clean []))
  /\ fst (fst (run demo_clean [])) = Exited 0
  /\ (forall value, ~ In (SetOutput "changed_files" value) (snd (run demo_clean [])))
  /\ (forall value, ~ In (SetOutput "diff_count" value) (snd (run demo_clean []))).
Proof.
  assert (Hin : In (GitHasDiff false) (snd (run demo_clean []))) by (vm_compute; tauto).
  split; [exact Hin|].
  destruct (clean_tree_exits_early (host := demo_host) demo_clean [] _ _ _ eq_refl Hin)
    as (He & _ & _ & Hfiles & Hcount & _).
  split; [exact He|]. split; [exact Hfiles|exact Hcount].
Defined.

Lemma failMessage_default_witness :
  fail_message demo_default = ""
  /\ In (GitHasDiff true) (snd (run demo_default []))
  /\ failOnDiff demo_default = true
  /\ fst (fst (run demo_default []))
     = Failed "Error: Generated or formatted files are out of date.".
Proof.
  assert (Hin : In (GitHasDiff true) (snd (run demo_default []))) by (vm_compute; tauto).
  split; [reflexivity|]. split; [exact Hin|]. split; [reflexivity|].
  destruct (failMessage_default (host := demo_host)) as (_ & _ & Huse).
  destruct (Huse demo_default [] _ _ _ eq_refl eq_refl Hin) as (_ & Hfail).
  exact (Hfail eq_refl).
Defined.

Lemma failed_result_has_message_witness :
  exists r,
    fst (fst (runCommand "" [])) = Normal r
    /\ ok r = false
    /\ message r = Some "TypeError: Command must not be empty".
Proof.
  destruct (failed_result_has_message (host := demo_host) "" []) as (r & w1 & t & Hrun & Hmsg).
  exists r. split; [rewrite Hrun; reflexivity|].
  assert (Hok : ok r = false).
  { vm_compute in Hrun. injection Hrun as <- _ _. reflexivity. }
  split; [exact Hok|].
  destruct (Hmsg Hok) as (e & He & Hm).
  vm_compute in He. injection He as <-. exact Hm.
Defined.

(** ** Every run, call by call *)

Section Traces.

Context {host : Host}.

Lemma report_failure_events f w :
  report_failure f w = (Normal tt, w, failure_events f).
Proof.
  unfold report_failure, failure_events, when, bind, emit, ret.
  destruct (exitCode f), (truthy (stderr f)); reflexivity.
Qed.

Lemma report_failures_events fs : forall w,
  for_of fs report_failure w = (Normal tt, w, flat_map failure_events fs).
Proof.
  induction fs as [|f rest IH]; intros w; [reflexivity|].
  cbn [for_of flat_map]. unfold bind. rewrite report_failure_events, IH. reflexivity.
Qed.

Lemma command_gate_events inp results w :
  command_gate inp results w
  = (match failures_of results with
     | [] => Normal tt
     | _ :: _ =>
         if failOnCommandError inp
         then Throw (JError "Error" (command_error_message (failures_of results)))
         else Normal tt
     end, w, gate_events results).
Proof.
  unfold command_gate, gate_events.
  destruct (failures_of results) as [|f fs] eqn:Hf; [reflexivity|].
  unfold when, bind, emit, ret, throw. cbn [length Nat.ltb Nat.leb].
  rewrite report_failures_events.
  destruct (failOnCommandError inp); cbn [app]; rewrite ?app_nil_r; reflexivity.
Qed.

Lemma failures_nil_iff results :
  failures_of results = [] <-> forallb ok results = true.
Proof.
  unfold failures_of. induction results as [|r rest IH]; [tauto|].
  cbn. destruct (ok r); cbn; [exact IH|]. split; discriminate.
Qed.

(** The three ways a run goes, with every call of each. *)
Lemma run_cases inp w :
  exists results w1,
    pipeline w (commands inp) results w1
    /\ ((failOnCommandError inp = true /\ forallb ok results = false
         /\ run inp w
            = (Failed ("Error: " ++ command_error_message (failures_of results)), w1,
               (commands_events inp results
                  ++ [SetFailed ("Error: "
                                 ++ command_error_message (failures_of results))])%list))
        \/ ((failOnCommandError inp = false \/ forallb ok results = true)
            /\ exists w2, git_hasDiff w1 = (false, w2)
                          /\ run inp w
                             = (Exited 0, w2,
                                (commands_events inp results ++ clean_report)%list))
        \/ ((failOnCommandError inp = false \/ forallb ok results = true)
            /\ exists w2 files w3,
                git_hasDiff w1 = (true, w2)
                /\ git_getChangedFiles w2 = (files, w3)
                /\ run inp w
                   = (if failOnDiff inp
                      then Failed ("Error: " ++ failMessage (fail_message inp))
                      else Finished,
                      git_diff files w3,
                      (commands_events inp results ++ diff_report inp files
                         ++ if failOnDiff inp
                            then [SetFailed ("Error: " ++ failMessage (fail_message inp))]
                            else [])%list))).
Proof.
  destruct (runCommands_from_run (commands inp) [] w) as (results & w1 & Hrun & Hpipe).
  cbn [app] in Hrun. fold (runCommands (commands inp)) in Hrun.
  pose proof (command_gate_events inp results w1) as Hcg.
  exists results, w1. split; [exact Hpipe|].
  match goal with
  | |- _ \/ ?B =>
      assert (Hcont : command_gate inp results w1 = (Normal tt, w1, gate_events results) ->
                      failOnCommandError inp = false \/ forallb ok results = true -> B)
  end.
  { intros Hn Hor. pose proof (run_after_gate _ _ _ _ _ Hrun Hn) as Hr.
    fold (commands_events inp results) in Hr.
    destruct (git_hasDiff w1) as [[|] w2] eqn:Hd.
    - right. split; [exact Hor|].
      destruct (git_getChangedFiles w2) as [files w3] eqn:Hc.
      exists w2, files, w3. split; [reflexivity|]. split; [exact Hc|].
      rewrite Hr, (diff_gate_changed _ _ _ _ _ Hd Hc).
      destruct (failOnDiff inp).
      + rewrite <- app_assoc. reflexivity.
      + rewrite app_nil_r. reflexivity.
    - left. split; [exact Hor|]. exists w2. split; [reflexivity|].
      rewrite Hr, (diff_gate_clean _ _ _ Hd). reflexivity. }
  destruct (failures_of results) as [|f fs] eqn:Hf.
  - right. apply Hcont; [exact Hcg|]. right. apply failures_nil_iff, Hf.
  - destruct (failOnCommandError inp) eqn:Hsw.
    + left. split; [reflexivity|]. split.
      * destruct (forallb ok results) eqn:Hall; [|reflexivity].
        apply failures_nil_iff in Hall. congruence.
      * unfold run. rewrite (script_body_abort _ _ _ _ _ _ Hrun Hcg). reflexivity.
    + right. apply Hcont; [exact Hcg|]. left. reflexivity.
Qed.

(** *** Filtering the pieces of a trace *)

Lemma filter_map_none {A} (p : Event -> bool) (f : A -> Event) (l : list A) :
  (forall x, p (f x) = false) -> filter p (map f l) = [].
Proof.
  intros H. induction l as [|x rest IH]; [reflexivity|].
  cbn. rewrite H. exact IH.
Qed.

Lemma filter_map_all {A} (p : Event -> bool) (f : A -> Event) (l : list A) :
  (forall x, p (f x) = true) -> filter p (map f l) = map f l.
Proof.
  intros H. induction l as [|x rest IH]; [reflexivity|].
  cbn. rewrite H, IH. reflexivity.
Qed.

Lemma filter_failure_events_none (p : Event -> bool) fs :
  (forall s, p (Warning s) = false) -> (forall s, p (Error s) = false) ->
  filter p (flat_map failure_events fs) = [].
Proof.
  intros Hw He. induction fs as [|f rest IH]; [reflexivity|].
  cbn [flat_map]. rewrite filter_app, IH, app_nil_r. unfold failure_events.
  destruct (exitCode f), (truthy (stderr f)); cbn; rewrite ?Hw, ?He; reflexivity.
Qed.

Lemma filter_failure_events_all fs :
  filter is_annotation (flat_map failure_events fs) = flat_map failure_events fs.
Proof.
  induction fs as [|f rest IH]; [reflexivity|].
  cbn [flat_map]. rewrite filter_app, IH. f_equal. unfold failure_events.
  destruct (exitCode f), (truthy (stderr f)); reflexivity.
Qed.

Lemma groups_closed_neutral (t rest : list Event) (opened : bool) :
  forallb (fun e => match e with StartGroup _ | EndGroup => false | _ => true end) t = true ->
  groups_closed opened (t ++ rest) = groups_closed opened rest.
Proof.
  induction t as [|e t IH]; intros H; [reflexivity|].
  cbn in H. apply andb_true_iff in H. destruct H as [He Ht].
  destruct e; try discriminate; cbn; apply IH, Ht.
Qed.

Lemma filter_none_of (p q : Event -> bool) (t : list Event) :
  forallb q t = true -> (forall e, q e = true -> p e = false) -> filter p t = [].
Proof.
  intros Hall Hpq. induction t as [|e t IH]; [reflexivity|].
  cbn in Hall. apply andb_true_iff in Hall. destruct Hall as [He Ht].
  cbn. rewrite (Hpq e He). exact (IH Ht).
Qed.

Lemma commands_events_before_gate inp results :
  forallb before_diff_gate (commands_events inp results) = true.
Proof.
  unfold commands_events, gate_events.
  cbn [forallb before_diff_gate andb]. rewrite forallb_app.
  apply andb_true_iff. split.
  - induction (commands inp) as [|c rest IH]; [reflexivity|exact IH].
  - destruct (failures_of results) as [|f fs]; [reflexivity|].
    cbn [forallb before_diff_gate andb String.eqb Ascii.eqb Bool.eqb].
    rewrite forallb_app. apply andb_true_iff. split; [|reflexivity].
    induction (f :: fs) as [|g gs IH]; [reflexivity|].
    cbn [flat_map]. rewrite forallb_app, IH, andb_true_r. unfold failure_events.
    destruct (exitCode g), (truthy (stderr g)); reflexivity.
Qed.

Lemma filter_commands_events_none (p : Event -> bool) inp results :
  (forall e, before_diff_gate e = true -> p e = false) ->
  filter p (commands_events inp results) = [].
Proof.
  intros H. exact (filter_none_of p _ _ (commands_events_before_gate inp results) H).
Qed.

Lemma filter_execa_commands_events inp results :
  filter is_execa (commands_events inp results) = map Execa (commands inp).
Proof.
  unfold commands_events, gate_events. cbn [filter is_execa].
  rewrite filter_app, (filter_map_all is_execa Execa) by reflexivity.
  cbn [filter is_execa].
  destruct (failures_of results) as [|f fs]; [apply app_nil_r|].
  cbn [filter is_execa]. rewrite filter_app, filter_failure_events_none by reflexivity.
  apply app_nil_r.
Qed.

Lemma filter_annotation_commands_events inp results :
  filter is_annotation (commands_events inp results)
  = flat_map failure_events (failures_of results).
Proof.
  unfold commands_events, gate_events. cbn [filter is_annotation].
  rewrite filter_app, (filter_map_none is_annotation Execa) by reflexivity.
  cbn [filter is_annotation app].
  destruct (failures_of results) as [|f fs]; [reflexivity|].
  cbn [filter is_annotation]. rewrite filter_app, filter_failure_events_all.
  apply app_nil_r.
Qed.

Lemma filter_output_commands_events name inp results :
  filter (is_output name) (commands_events inp results)
  = if String.eqb "command_failures" name
    then [SetOutput "command_failures" (string_of_nat (length (failures_of results)))]
    else [].
Proof.
  unfold commands_events, gate_events. cbn [filter is_output].
  rewrite filter_app, (filter_map_none (is_output name) Execa) by reflexivity.
  cbn [filter is_output app].
  assert (Hrest : filter (is_output name)
                    match failures_of results with
                    | [] => []
                    | _ :: _ =>
                        StartGroup "Command failures"
                        :: flat_map failure_events (failures_of results) ++ [EndGroup]
                    end = []).
  { destruct (failures_of results) as [|f fs]; [reflexivity|].
    cbn [filter is_output]. rewrite filter_app, filter_failure_events_none by reflexivity.
    reflexivity. }
  rewrite Hrest. reflexivity.
Qed.

End Traces.

(** Take the three ways of a run apart. *)
Ltac split_run inp w :=
  let results := fresh "results" in
  let w1 := fresh "w1" in
  let Hpipe := fresh "Hpipe" in
  let Hr := fresh "Hr" in
  destruct (run_cases inp w)
    as (results & w1 & Hpipe
        & [(?Hsw & ?Hfail & Hr)
          |[(?Hor & ?w2 & ?Hd & Hr)|(?Hor & ?w2 & ?files & ?w3 & ?Hd & ?Hc & Hr)]]).

Section Runs.

Context {host : Host}.

(** Once the inputs are read, the output [command_failures] is set exactly
    once, to the number of results with [ok] false. *)
Theorem command_failures_output (inp : Inputs) (w : World) :
  exists results w1,
    pipeline w (commands inp) results w1
    /\ filter (is_output "command_failures") (snd (run inp w))
       = [SetOutput "command_failures"
            (string_of_nat (length (filter (fun r => negb (ok r)) results)))].
Proof.
  split_run inp w; exists results, w1; (split; [exact Hpipe|]); rewrite Hr; cbn [snd].
  - rewrite filter_app, filter_output_commands_events. reflexivity.
  - rewrite filter_app, filter_output_commands_events. reflexivity.
  - rewrite !filter_app, filter_output_commands_events. unfold diff_report.
    rewrite filter_app. cbn [filter is_output String.eqb Ascii.eqb Bool.eqb app].
    rewrite filter_app, filter_map_none by reflexivity.
    destruct (failOnDiff inp); reflexivity.
Qed.

(** X2. The inspector is asked whether the tree has changed at most once in
    a run, in the world all the commands have left, and it is asked unless
    the command-failure gate stops the run: with [failOnCommandError] off the
    diff gate is reached even when every command has failed. *)
Theorem inspector_asked_once (inp : Inputs) (w : World) :
  exists results w1,
    pipeline w (commands inp) results w1
    /\ filter is_hasDiff (snd (run inp w))
       = if failOnCommandError inp && negb (forallb ok results)
         then []
         else [GitHasDiff (fst (git_hasDiff w1))].
Proof.
  split_run inp w; exists results, w1; (split; [exact Hpipe|]); rewrite Hr; cbn [snd].
  - rewrite Hsw, Hfail. cbn [andb negb].
    rewrite filter_app, filter_commands_events_none; [reflexivity|].
    intros [] He; try discriminate; reflexivity.
  - assert (Hgo : failOnCommandError inp && negb (forallb ok results) = false).
    { destruct Hor as [-> | ->]; [reflexivity|apply andb_false_r]. }
    rewrite Hgo, Hd, filter_app, filter_commands_events_none; [reflexivity|].
    intros [] He; try discriminate; reflexivity.
  - assert (Hgo : failOnCommandError inp && negb (forallb ok results) = false).
    { destruct Hor as [-> | ->]; [reflexivity|apply andb_false_r]. }
    rewrite Hgo, Hd, !filter_app, filter_commands_events_none.
    2:{ intros [] He; try discriminate; reflexivity. }
    unfold diff_report. rewrite filter_app. cbn [filter is_hasDiff app].
    rewrite filter_app, filter_map_none by reflexivity.
    destruct (failOnDiff inp); reflexivity.
Qed.

(** X3. When the inspector has reported changes and [failOnDiff] is off, the
    run ends normally with exit status 0 and without a failure report to the
    CI sink, and it has still set [changed_files] to the changed files joined
    with line feeds and [diff_count] to their number, and asked for their
    diff. *)
Theorem report_only_run (inp : Inputs) (w : World)
    (e : RunEnd) (w' : World) (t : list Event) :
  run inp w = (e, w', t) ->
  In (GitHasDiff true) t ->
  failOnDiff inp = false ->
  e = Finished
  /\ exit_status e = 0%Z
  /\ filter is_setFailed t = []
  /\ exists files,
      filter is_inspector t
      = [GitHasDiff true; GitGetChangedFiles files; GitDiff files]
      /\ filter (is_output "changed_files") t = [SetOutput "changed_files" (join LF files)]
      /\ filter (is_output "diff_count") t
         = [SetOutput "diff_count" (string_of_nat (length files))].
Proof.
  intros Hrun Hin Hoff.
  pose proof (commands_events_before_gate inp) as Hpre.
  split_run inp w; rewrite Hr in Hrun; clear Hr;
    apply triple_eq in Hrun; destruct Hrun as (-> & -> & ->).
  - split_In Hin; try discriminate.
    exfalso. revert Hin. apply (not_In_before_gate _ _ (Hpre results)). reflexivity.
  - split_In Hin; try discriminate.
    exfalso. revert Hin. apply (not_In_before_gate _ _ (Hpre results)). reflexivity.
  - clear Hin. rewrite Hoff. split; [reflexivity|]. split; [reflexivity|].
    rewrite app_nil_r. unfold diff_report. split; [|exists files; split; [|split]].
    all: rewrite ?filter_app.
    + rewrite filter_commands_events_none, filter_map_none; [reflexivity|reflexivity|].
      intros [] He; try discriminate; reflexivity.
    + rewrite filter_commands_events_none, filter_map_none; [reflexivity|reflexivity|].
      intros [] He; try discriminate; reflexivity.
    + rewrite filter_output_commands_events, filter_map_none by reflexivity. reflexivity.
    + rewrite filter_output_commands_events, filter_map_none by reflexivity. reflexivity.
Qed.

(** Once the inputs are read, the exit status is 1 exactly when
    [failOnCommandError] is on and some command has failed, or else the tree
    has changed and [failOnDiff] is on; otherwise it is 0. *)
Theorem exit_status_table (inp : Inputs) (w : World) :
  exists results w1,
    pipeline w (commands inp) results w1
    /\ exit_status (fst (fst (run inp w)))
       = if failOnCommandError inp && negb (forallb ok results) then 1%Z
         else if fst (git_hasDiff w1) && failOnDiff inp then 1%Z
         else 0%Z.
Proof.
  split_run inp w; exists results, w1; (split; [exact Hpipe|]); rewrite Hr; cbn [fst].
  - rewrite Hsw, Hfail. reflexivity.
  - assert (Hgo : failOnCommandError inp && negb (forallb ok results) = false).
    { destruct Hor as [-> | ->]; [reflexivity|apply andb_false_r]. }
    rewrite Hgo, Hd. reflexivity.
  - assert (Hgo : failOnCommandError inp && negb (forallb ok results) = false).
    { destruct Hor as [-> | ->]; [reflexivity|apply andb_false_r]. }
    rewrite Hgo, Hd. cbn [fst andb]. destruct (failOnDiff inp); reflexivity.
Qed.

(** Once the inputs are read, a failure is reported to the CI sink exactly
    when one of the two gates throws: then [core.setFailed] is called once,
    last, with a text that starts with ["Error: "]. *)
Theorem setFailed_once_and_last (inp : Inputs) (w : World) :
  match fst (fst (run inp w)) with
  | Failed text =>
      exists before reason,
        snd (run inp w) = (before ++ [SetFailed text])%list
        /\ filter is_setFailed before = []
        /\ text = "Error: " ++ reason
  | _ => filter is_setFailed (snd (run inp w)) = []
  end.
Proof.
  assert (Hnone : forall results, filter is_setFailed (commands_events inp results) = []).
  { intros results. apply filter_commands_events_none.
    intros [] He; try discriminate; reflexivity. }
  assert (Hdiff : forall files, filter is_setFailed (diff_report inp files) = []).
  { intros files. unfold diff_report. rewrite filter_app. cbn [filter is_setFailed app].
    rewrite filter_app, filter_map_none by reflexivity. reflexivity. }
  split_run inp w; rewrite Hr; cbn [fst snd].
  - do 2 eexists. split; [reflexivity|]. split; [apply Hnone|reflexivity].
  - rewrite filter_app, Hnone. reflexivity.
  - destruct (failOnDiff inp).
    + do 2 eexists. split; [apply app_assoc|].
      split; [|reflexivity]. rewrite filter_app, Hnone, Hdiff. reflexivity.
    + rewrite !filter_app, Hnone, Hdiff. reflexivity.
Qed.

(** X6. In every run the log groups are well formed: a group is started only
    when none is open, ended only when one is open, and none is left open
    when the run ends, whichever way it ends. *)
Theorem groups_well_formed (inp : Inputs) (w : World) :
  groups_closed false (snd (run inp w)) = true.
Proof.
  assert (Hexeca : forall cmds,
            forallb (fun e => match e with StartGroup _ | EndGroup => false | _ => true end)
                    (map Execa cmds) = true).
  { intros cmds. induction cmds as [|c rest IH]; [reflexivity|exact IH]. }
  assert (Hfail : forall fs,
            forallb (fun e => match e with StartGroup _ | EndGroup => false | _ => true end)
                    (flat_map failure_events fs) = true).
  { intros fs. induction fs as [|f rest IH]; [reflexivity|].
    cbn [flat_map]. rewrite forallb_app, IH, andb_true_r. unfold failure_events.
    destruct (exitCode f), (truthy (stderr f)); reflexivity. }
  assert (Hlog : forall files,
            forallb (fun e => match e with StartGroup _ | EndGroup => false | _ => true end)
                    (map (fun f => ConsoleLog ("- " ++ f)) files) = true).
  { intros files. induction files as [|f rest IH]; [reflexivity|exact IH]. }
  assert (Hpre : forall results rest,
            groups_closed false (commands_events inp results ++ rest)
            = groups_closed false rest).
  { intros results rest. unfold commands_events, gate_events.
    cbn [app groups_closed negb andb]. rewrite <- app_assoc.
    rewrite (groups_closed_neutral _ _ _ (Hexeca _)).
    cbn [app groups_closed negb andb].
    destruct (failures_of results) as [|f fs]; [reflexivity|].
    cbn [app groups_closed negb andb]. rewrite <- app_assoc.
    rewrite (groups_closed_neutral _ _ _ (Hfail _)). reflexivity. }
  split_run inp w; rewrite Hr; cbn [snd]; rewrite Hpre.
  - reflexivity.
  - reflexivity.
  - unfold diff_report. cbn [app groups_closed negb andb].
    rewrite <- !app_assoc. rewrite (groups_closed_neutral _ _ _ (Hlog _)).
    destruct (failOnDiff inp); reflexivity.
Qed.

(** Once the inputs are read, the executor is called once for each command,
    in order, inside the group ["Running commands"], and not after it. *)
Theorem executor_calls (inp : Inputs) (w : World) :
  exists rest,
    snd (run inp w)
    = (StartGroup "Running commands" :: map Execa (commands inp) ++ EndGroup :: rest)%list
    /\ filter is_execa rest = [].
Proof.
  assert (Hgate : forall results, filter is_execa (gate_events results) = []).
  { intros results. unfold gate_events. cbn [filter is_execa].
    destruct (failures_of results) as [|f fs]; [reflexivity|].
    cbn [filter is_execa]. rewrite filter_app, filter_failure_events_none by reflexivity.
    reflexivity. }
  assert (Hshape : forall results tail,
            (commands_events inp results ++ tail)%list
            = (StartGroup "Running commands"
                 :: map Execa (commands inp) ++ EndGroup :: gate_events results ++ tail)%list).
  { intros results tail. unfold commands_events. cbn [app].
    rewrite <- app_assoc. reflexivity. }
  split_run inp w; rewrite Hr; cbn [snd]; rewrite Hshape; eexists;
    (split; [reflexivity|]); rewrite !filter_app, Hgate.
  - reflexivity.
  - reflexivity.
  - unfold diff_report. rewrite filter_app. cbn [filter is_execa app].
    rewrite filter_app, filter_map_none by reflexivity.
    destruct (failOnDiff inp); reflexivity.
Qed.

(** X8. The warnings and errors of a run are exactly those that report the
    failed commands, in command order: for each one the warning with its
    command text, then its exit code if it has one, then its standard error
    as an error if that is not empty.  A run whose commands all succeed
    emits no warning and no error. *)
Theorem annotations_report_failures (inp : Inputs) (w : World) :
  exists results w1,
    pipeline w (commands inp) results w1
    /\ filter is_annotation (snd (run inp w))
       = flat_map
           (fun f =>
              Warning ("Command failed: " ++ command f)
              :: (match exitCode f with
                  | Some code => [Warning ("Exit code: " ++ string_of_Z code)]
                  | None => []
                  end
                  ++ if String.eqb (stderr f) "" then [] else [Error (stderr f)]))%list
           (filter (fun r => negb (ok r)) results)
    /\ (forallb ok results = false \/ filter is_annotation (snd (run inp w)) = []).
Proof.
  assert (Hsame : forall fs,
            flat_map failure_events fs
            = flat_map
                (fun f =>
                   Warning ("Command failed: " ++ command f)
                   :: (match exitCode f with
                       | Some code => [Warning ("Exit code: " ++ string_of_Z code)]
                       | None => []
                       end
                       ++ if String.eqb (stderr f) "" then [] else [Error (stderr f)]))%list
                fs).
  { intros fs. apply flat_map_ext. intros f. unfold failure_events, truthy.
    destruct (exitCode f), (String.eqb (stderr f) ""); reflexivity. }
  split_run inp w; exists results, w1; (split; [exact Hpipe|]).
  all: assert (Hfilter : filter is_annotation (snd (run inp w))
                         = flat_map failure_events (failures_of results));
    [ rewrite Hr; cbn [snd]; rewrite ?filter_app, filter_annotation_commands_events
    | split; [rewrite Hfilter; apply Hsame
             | destruct (forallb ok results) eqn:Hok; [right|left; reflexivity];
               rewrite Hfilter; apply failures_nil_iff in Hok; rewrite Hok;
               reflexivity] ].
  - apply app_nil_r.
  - apply app_nil_r.
  - unfold diff_report. rewrite filter_app. cbn [filter is_annotation app].
    rewrite filter_app, filter_map_none by reflexivity.
    destruct (failOnDiff inp); cbn; apply app_nil_r.
Qed.

(** X9. The summary document is written at most once in a run: once when
    the diff gate is reached, whatever the inspector answers, and not at all
    when the command-failure gate stops the run. *)
Theorem summary_written_once (inp : Inputs) (w : World) :
  exists results w1,
    pipeline w (commands inp) results w1
    /\ length (filter is_summary (snd (run inp w)))
       = if failOnCommandError inp && negb (forallb ok results) then 0 else 1.
Proof.
  assert (Hnone : forall results, filter is_summary (commands_events inp results) = []).
  { intros results. apply filter_commands_events_none.
    intros [] He; try discriminate; reflexivity. }
  split_run inp w; exists results, w1; (split; [exact Hpipe|]); rewrite Hr; cbn [snd];
    rewrite !filter_app, Hnone.
  - rewrite Hsw, Hfail. reflexivity.
  - assert (Hgo : failOnCommandError inp && negb (forallb ok results) = false).
    { destruct Hor as [-> | ->]; [reflexivity|apply andb_false_r]. }
    rewrite Hgo. reflexivity.
  - assert (Hgo : failOnCommandError inp && negb (forallb ok results) = false).
    { destruct Hor as [-> | ->]; [reflexivity|apply andb_false_r]. }
    rewrite Hgo. unfold diff_report. rewrite filter_app. cbn [filter is_summary app].
    rewrite filter_app, filter_map_none by reflexivity.
    destruct (failOnDiff inp); reflexivity.
Qed.

(** From line 114 on, on a clean tree: the inspector is asked nothing more
    and no changed file is logged to the console. *)
Theorem clean_tree_asks_nothing_more (inp : Inputs) (w : World)
    (e : RunEnd) (w' : World) (t : list Event) :
  run inp w = (e, w', t) ->
  In (GitHasDiff false) t ->
  filter is_inspector t = [GitHasDiff false]
  /\ (forall line, ~ In (ConsoleLog line) t).
Proof.
  intros Hrun Hin.
  pose proof (commands_events_before_gate inp) as Hpre.
  split_run inp w; rewrite Hr in Hrun; clear Hr;
    apply triple_eq in Hrun; destruct Hrun as (-> & -> & ->).
  - split_In Hin; try discriminate.
    exfalso. revert Hin. apply (not_In_before_gate _ _ (Hpre results)). reflexivity.
  - clear Hin. split.
    + rewrite filter_app, filter_commands_events_none; [reflexivity|].
      intros [] He; try discriminate; reflexivity.
    + intros line Hin. split_In Hin; try discriminate.
      revert Hin. apply (not_In_before_gate _ _ (Hpre results)). reflexivity.
  - split_In Hin; try discriminate.
    exfalso. revert Hin. apply (not_In_before_gate _ _ (Hpre results)). reflexivity.
Qed.

(** X11. Running two lists of commands one after the other is running their
    concatenation: the results are the results of the first list followed by
    those of the second, the second list being run in the world the first
    one left. *)
Theorem runCommands_app (xs ys : list string) (w : World) :
  exists rs1 w1 rs2 w2,
    runCommands xs w = (Normal rs1, w1, map Execa xs)
    /\ runCommands ys w1 = (Normal rs2, w2, map Execa ys)
    /\ runCommands (xs ++ ys) w
       = (Normal (rs1 ++ rs2)%list, w2, (map Execa xs ++ map Execa ys)%list).
Proof.
  destruct (runCommands_from_run xs [] w) as (rs1 & w1 & H1 & P1).
  destruct (runCommands_from_run ys [] w1) as (rs2 & w2 & H2 & P2).
  destruct (runCommands_from_run (xs ++ ys) [] w) as (rs & w3 & H3 & P3).
  exists rs1, w1, rs2, w2. split; [exact H1|]. split; [exact H2|].
  assert (Happ : pipeline w (xs ++ ys) (rs1 ++ rs2) w2).
  { clear H1 H3 P3. induction P1 as [|? ? ? ? ? ? ? Hr _ IH]; [exact P2|].
    cbn. econstructor; [exact Hr|]. apply IH; assumption. }
  destruct (pipeline_deterministic _ _ _ _ Happ _ _ P3) as [-> ->].
  unfold runCommands. rewrite H3, map_app. reflexivity.
Qed.

End Runs.

(** ** Output lines *)

Section Outputs.

Context {host : Host}.

(** X12. The chunks of an output that came as a non-empty array of strings
    are found again by splitting the normalized output at the line feeds,
    provided no chunk has a line feed inside. *)
Theorem normalizeOutput_split (chunks : list string) :
  chunks <> [] ->
  forallb one_line chunks = true ->
  lines (normalizeOutput (JArr (map JStr chunks))) = chunks.
Proof.
  intros Hne Hone.
  assert (Hjoin : normalizeOutput (JArr (map JStr chunks)) = join LF chunks).
  { cbn [normalizeOutput]. unfold array_join. rewrite map_map. cbn [element_String to_String].
    rewrite map_id. reflexivity. }
  rewrite Hjoin. apply lines_join; assumption.
Qed.

End Outputs.

Lemma normalizeOutput_split_witness :
  ["writing"; "out.txt"] <> []
  /\ forallb one_line ["writing"; "out.txt"] = true
  /\ lines (normalizeOutput (JArr (map JStr ["writing"; "out.txt"]))) = ["writing"; "out.txt"].
Proof.
  assert (Hne : ["writing"; "out.txt"] <> []) by discriminate.
  split; [exact Hne|]. split; [reflexivity|].
  exact (normalizeOutput_split (host := demo_host) ["writing"; "out.txt"] Hne eq_refl).
Defined.

(** ** The banner *)

Section BannerProperties.

Context {terminal : Terminal}.

Lemma replace_at_length i x array : length (replace_at i x array) = length array.
Proof.
  revert i. induction array as [|y rest IH]; intros [|j]; cbn; auto.
Qed.

Lemma replace_at_middle before l after x :
  replace_at (length before) x (before ++ l :: after) = (before ++ x :: after)%list.
Proof.
  induction before as [|b rest IH]; [reflexivity|]. cbn. rewrite IH. reflexivity.
Qed.

Lemma nth_error_middle (before : list string) l after :
  nth_error (before ++ l :: after) (length before) = Some l.
Proof.
  induction before as [|b rest IH]; [reflexivity|exact IH].
Qed.

Lemma stamp_loop_in_range version bannerLines : forall n,
  n <= length bannerLines ->
  exists stamped_lines,
    stamp_loop n version bannerLines = Some stamped_lines
    /\ length stamped_lines = length bannerLines.
Proof.
  induction n as [|i IH]; intros Hn.
  - exists bannerLines. split; reflexivity.
  - cbn [stamp_loop].
    destruct (nth_error bannerLines i) as [line|] eqn:Hline.
    + destruct (truthy (trim line)).
      * eexists. split; [reflexivity|apply replace_at_length].
      * apply IH. lia.
    + apply nth_error_None in Hline. lia.
Qed.

(** The loop skips the blank lines at the end. *)
Lemma stamp_loop_skips version (blanks : list string) : forall front rest,
  forallb blank blanks = true ->
  stamp_loop (length front + length blanks) version (front ++ blanks ++ rest)
  = stamp_loop (length front) version (front ++ blanks ++ rest).
Proof.
  induction blanks as [|b blanks IH] using rev_ind; intros front rest Hblank.
  - cbn. rewrite Nat.add_0_r. reflexivity.
  - rewrite forallb_app in Hblank. apply andb_true_iff in Hblank.
    destruct Hblank as [Hblanks Hb]. cbn in Hb. rewrite andb_true_r in Hb.
    rewrite length_app. cbn [length].
    replace (length front + (length blanks + 1)) with (S (length front + length blanks)) by lia.
    cbn [stamp_loop].
    assert (Hnth : nth_error (front ++ (blanks ++ [b]) ++ rest) (length front + length blanks)
                   = Some b).
    { rewrite <- app_assoc, app_assoc, <- length_app. cbn [app].
      apply nth_error_middle. }
    rewrite Hnth. unfold blank in Hb. apply negb_true_iff in Hb. rewrite Hb.
    rewrite <- (app_assoc blanks [b] rest). apply IH, Hblanks.
Qed.

(** X13. The version loop never reads outside the banner and keeps the
    number of lines; so the banner is always printed. *)
Theorem stamp_keeps_lines (version : string) (bannerLines : list string) (art : string) :
  (exists stamped_lines,
      stamp version bannerLines = Some stamped_lines
      /\ length stamped_lines = length bannerLines)
  /\ exists text, banner art version = Some text.
Proof.
  split.
  - apply stamp_loop_in_range. lia.
  - unfold banner.
    destruct (stamp_loop_in_range version (lines art) (length (lines art))) as (ls & Hls & _);
      [lia|].
    unfold stamp. rewrite Hls. eexists. reflexivity.
Qed.

(** X14. The version is attached to the last line that is not blank, and to
    that line only: the lines before it and the blank lines after it are
    kept as they are.  A banner of blank lines only, or with no line, is
    left unchanged. *)
Theorem stamp_last_line (version : string) :
  (forall before line after,
      blank line = false ->
      forallb blank after = true ->
      stamp version (before ++ line :: after)
      = Some (before
                ++ (cyan_bold (trimEnd line) ++ " " ++ gray_dim ("v" ++ version))%string
                :: after)%list)
  /\ (forall bannerLines,
        forallb blank bannerLines = true ->
        stamp version bannerLines = Some bannerLines).
Proof.
  split.
  - intros before line after Hline Hafter. unfold stamp.
    replace (length (before ++ line :: after))
      with (length (before ++ [line]) + length after)
      by (rewrite !length_app; cbn; lia).
    replace (before ++ line :: after)%list with ((before ++ [line]) ++ after ++ [])%list
      by (rewrite app_nil_r, <- app_assoc; reflexivity).
    rewrite (stamp_loop_skips version after (before ++ [line]) [] Hafter).
    rewrite length_app. cbn [length].
    replace (length before + 1) with (S (length before)) by lia.
    cbn [stamp_loop].
    rewrite app_nil_r, <- app_assoc. cbn [app].
    rewrite nth_error_middle.
    unfold blank in Hline. apply negb_false_iff in Hline. rewrite Hline.
    rewrite replace_at_middle. reflexivity.
  - intros bannerLines Hblank. unfold stamp.
    pose proof (stamp_loop_skips version bannerLines [] [] Hblank) as H.
    cbn [length app Nat.add] in H. rewrite app_nil_r in H. exact H.
Qed.

End BannerProperties.

Lemma stamp_last_line_witness :
  blank " /_/  " = false
  /\ forallb blank ["   "; ""] = true
  /\ stamp "1.2.3" (["  __ "] ++ " /_/  " :: ["   "; ""])
     = Some ["  __ "; "< /_/> (v1.2.3)"; "   "; ""]
  /\ stamp "1.2.3" ["   "; ""] = Some ["   "; ""].
Proof.
  destruct (stamp_last_line (terminal := demo_terminal) "1.2.3") as (Hlast & Hblank).
  split; [reflexivity|]. split; [reflexivity|]. split.
  - exact (Hlast ["  __ "] " /_/  " ["   "; ""] eq_refl eq_refl).
  - exact (Hblank ["   "; ""] eq_refl).
Defined.

(** ** The release script *)

Module ReleaseProperties.

Import Release.

Lemma separator_not_digit c : is_separator c = true -> is_digit c = false.
Proof.
  unfold is_separator. intros H. apply orb_true_iff in H.
  destruct H as [H|H]; apply Ascii.eqb_eq in H; subst; reflexivity.
Qed.

Lemma digit_not_separator c : is_digit c = true -> is_separator c = false.
Proof.
  intros H. destruct (is_separator c) eqn:Hs; [|reflexivity].
  rewrite (separator_not_digit c Hs) in H. discriminate.
Qed.

Lemma digit_not_LF c : is_digit c = true -> Ascii.eqb c "010"%char = false.
Proof.
  intros H. destruct (Ascii.eqb c "010"%char) eqn:Hc; [|reflexivity].
  apply Ascii.eqb_eq in Hc. subst. discriminate.
Qed.

Lemma skip_digits_app a rest :
  all_digits a = true -> stops rest -> skip_digits (a ++ rest) = rest.
Proof.
  intros Ha Hrest. induction a as [|c a IH].
  - destruct rest as [|c rest]; [reflexivity|]. cbn in *. rewrite Hrest. reflexivity.
  - cbn in Ha. apply andb_true_iff in Ha. destruct Ha as [Hc Ha].
    cbn. rewrite Hc. exact (IH Ha).
Qed.

Lemma match_digits_app a rest :
  number a = true -> stops rest -> match_digits (a ++ rest) = Some rest.
Proof.
  intros Ha Hrest. destruct a as [|c a]; [discriminate|].
  cbn in Ha. apply andb_true_iff in Ha. destruct Ha as [Hc Ha].
  cbn. rewrite Hc. f_equal. apply skip_digits_app; assumption.
Qed.

Lemma skip_digits_inv s :
  exists a, all_digits a = true /\ s = a ++ skip_digits s.
Proof.
  induction s as [|c s (a & Ha & Hs)].
  - exists "". split; reflexivity.
  - cbn. destruct (is_digit c) eqn:Hc.
    + exists (String c a). split; [cbn; rewrite Hc; exact Ha|].
      cbn. f_equal. exact Hs.
    + exists "". split; reflexivity.
Qed.

Lemma match_digits_inv s rest :
  match_digits s = Some rest -> exists a, number a = true /\ s = a ++ rest.
Proof.
  destruct s as [|c s]; [discriminate|]. cbn.
  destruct (is_digit c) eqn:Hc; [|discriminate].
  intros H. injection H as <-.
  destruct (skip_digits_inv s) as (a & Ha & Hs).
  exists (String c a). split; [cbn; rewrite Hc; exact Ha|].
  cbn. f_equal. exact Hs.
Qed.

Lemma match_dot_inv s rest : match_dot s = Some rest -> s = "." ++ rest.
Proof.
  destruct s as [|c s]; [discriminate|]. cbn.
  destruct (Ascii.eqb c ".") eqn:Hc; [|discriminate].
  intros H. injection H as <-. apply Ascii.eqb_eq in Hc. subst. reflexivity.
Qed.

Lemma first_line_digits a rest :
  all_digits a = true -> first_line (a ++ rest) = a ++ first_line rest.
Proof.
  intros Ha. induction a as [|c a IH]; [reflexivity|].
  cbn in Ha. apply andb_true_iff in Ha. destruct Ha as [Hc Ha].
  cbn. rewrite (digit_not_LF c Hc), (IH Ha). reflexivity.
Qed.

Lemma first_line_one_line s : all_digits s = true -> first_line s = s.
Proof.
  intros Hs. induction s as [|c s IH]; [reflexivity|].
  cbn in Hs. apply andb_true_iff in Hs. destruct Hs as [Hc Hs].
  cbn. rewrite (digit_not_LF c Hc), (IH Hs). reflexivity.
Qed.

Lemma split_field_digits a sep rest :
  all_digits a = true -> is_separator sep = true ->
  split_field (a ++ String sep rest) = (a, Some rest).
Proof.
  intros Ha Hsep. induction a as [|c a IH].
  - cbn. rewrite Hsep. reflexivity.
  - cbn in Ha. apply andb_true_iff in Ha. destruct Ha as [Hc Ha].
    cbn. rewrite (digit_not_separator c Hc), (IH Ha). reflexivity.
Qed.

Lemma split_field_last a :
  all_digits a = true -> split_field a = (a, None).
Proof.
  intros Ha. induction a as [|c a IH]; [reflexivity|].
  cbn in Ha. apply andb_true_iff in Ha. destruct Ha as [Hc Ha].
  cbn. rewrite (digit_not_separator c Hc), (IH Ha). reflexivity.
Qed.

Lemma number_all_digits a : number a = true -> all_digits a = true.
Proof. destruct a; [discriminate|auto]. Qed.

(** X15. The script takes a version for a prerelease exactly when it starts
    with three numbers separated by dots and goes on with a dot or a hyphen;
    for such a version no tag is moved. *)
Theorem isPR_iff (version : string) :
  (isPR version = true
   <-> exists a b c sep rest,
        number a = true /\ number b = true /\ number c = true
        /\ is_separator sep = true
        /\ version = a ++ "." ++ b ++ "." ++ c ++ String sep rest)
  /\ (isPR version = true -> moved_tags version = []).
Proof.
  split; [split|].
  - unfold isPR.
    destruct (match_digits version) as [s1|] eqn:H1; [|discriminate].
    destruct (match_dot s1) as [s2|] eqn:H2; [|discriminate].
    destruct (match_digits s2) as [s3|] eqn:H3; [|discriminate].
    destruct (match_dot s3) as [s4|] eqn:H4; [|discriminate].
    destruct (match_digits s4) as [s5|] eqn:H5; [|discriminate].
    destruct s5 as [|sep rest]; [discriminate|]. intros Hsep.
    destruct (match_digits_inv _ _ H1) as (a & Ha & ->).
    destruct (match_digits_inv _ _ H3) as (b & Hb & ->).
    destruct (match_digits_inv _ _ H5) as (c & Hc & ->).
    apply match_dot_inv in H2, H4. subst s1 s3.
    exists a, b, c, sep, rest. repeat (split; [assumption|]). reflexivity.
  - intros (a & b & c & sep & rest & Ha & Hb & Hc & Hsep & ->).
    unfold isPR.
    rewrite (match_digits_app a _ Ha) by reflexivity. cbn [append match_dot Ascii.eqb Bool.eqb].
    rewrite (match_digits_app b _ Hb) by reflexivity. cbn [append match_dot Ascii.eqb Bool.eqb].
    rewrite (match_digits_app c _ Hc) by (exact (separator_not_digit sep Hsep)).
    exact Hsep.
  - intros H. unfold moved_tags. rewrite H. reflexivity.
Qed.

(** X16. For a release version [a.b.c] of three numbers the script moves two
    tags, in this order: [a] and [a.b]. *)
Theorem release_moves_major_and_minor (a b c : string) :
  number a = true -> number b = true -> number c = true ->
  isPR (a ++ "." ++ b ++ "." ++ c) = false
  /\ moved_tags (a ++ "." ++ b ++ "." ++ c) = [a; a ++ "." ++ b].
Proof.
  intros Ha Hb Hc.
  assert (Hpr : isPR (a ++ "." ++ b ++ "." ++ c) = false).
  { unfold isPR.
    rewrite (match_digits_app a _ Ha) by reflexivity. cbn [append match_dot Ascii.eqb Bool.eqb].
    rewrite (match_digits_app b _ Hb) by reflexivity. cbn [append match_dot Ascii.eqb Bool.eqb].
    pose proof (match_digits_app c "" Hc I) as H5.
    assert (Hnil : c ++ "" = c) by (clear; induction c as [|x c IH]; cbn; congruence).
    rewrite Hnil in H5. rewrite H5. reflexivity. }
  split; [exact Hpr|].
  apply number_all_digits in Ha, Hb, Hc.
  unfold moved_tags. rewrite Hpr.
  unfold major_version, major_minor_version, major, minor.
  rewrite (first_line_digits a _ Ha). cbn [append first_line Ascii.eqb Bool.eqb].
  rewrite (first_line_digits b _ Hb). cbn [append first_line Ascii.eqb Bool.eqb].
  rewrite (first_line_one_line c Hc).
  rewrite (split_field_digits a "." _ Ha eq_refl). cbn [fst snd].
  rewrite (split_field_digits b "." _ Hb eq_refl). reflexivity.
Qed.

End ReleaseProperties.

Lemma isPR_iff_witness :
  Release.isPR "1.2.3-beta.1" = true /\ Release.moved_tags "1.2.3-beta.1" = [].
Proof.
  destruct (ReleaseProperties.isPR_iff "1.2.3-beta.1") as ((_ & Hback) & Htags).
  assert (H : Release.isPR "1.2.3-beta.1" = true).
  { apply Hback. exists "1", "2", "3", "-"%char, "beta.1".
    repeat (split; [reflexivity|]). reflexivity. }
  split; [exact H|exact (Htags H)].
Defined.

Lemma release_moves_major_and_minor_witness :
  Release.number "10" = true /\ Release.number "4" = true /\ Release.number "0" = true
  /\ Release.isPR "10.4.0" = false
  /\ Release.moved_tags "10.4.0" = ["10"; "10.4"].
Proof.
  split; [reflexivity|]. split; [reflexivity|]. split; [reflexivity|].
  exact (ReleaseProperties.release_moves_major_and_minor "10" "4" "0" eq_refl eq_refl eq_refl).
Defined.

(** ** The runs on the small host *)

Lemma report_only_run_witness :
  In (GitHasDiff true) (snd (run demo_report []))
  /\ failOnDiff demo_report = false
  /\ fst (fst (run demo_report [])) = Finished
  /\ filter (is_output "changed_files") (snd (run demo_report []))
     = [SetOutput "changed_files" "out.txt"].
Proof.
  assert (Hin : In (GitHasDiff true) (snd (run demo_report []))) by (vm_compute; tauto).
  split; [exact Hin|]. split; [reflexivity|].
  destruct (report_only_run (host := demo_host) demo_report [] _ _ _ eq_refl Hin eq_refl)
    as (He & _).
  split; [exact He|reflexivity].
Defined.


(** ** More on outputs, the release script and the banner *)

Section MoreRuns.

Context {host : Host}.

(** X17. The output [has_diff] is set exactly when the inspector has
    answered, once, to that answer as ["true"] or ["false"]. *)
Theorem has_diff_output (inp : Inputs) (w : World) :
  filter (is_output "has_diff") (snd (run inp w))
  = map (fun e => match e with
                  | GitHasDiff answer => SetOutput "has_diff" (string_of_bool answer)
                  | _ => e
                  end)
        (filter is_hasDiff (snd (run inp w))).
Proof.
  assert (Hout : forall results,
            filter (is_output "has_diff") (commands_events inp results) = []).
  { intros results. rewrite filter_output_commands_events. reflexivity. }
  assert (Hask : forall results, filter is_hasDiff (commands_events inp results) = []).
  { intros results. apply filter_commands_events_none.
    intros [] He; try discriminate; reflexivity. }
  split_run inp w; rewrite Hr; cbn [snd]; rewrite !filter_app, Hout, Hask.
  - reflexivity.
  - reflexivity.
  - unfold diff_report. rewrite !filter_app.
    cbn [filter is_hasDiff is_output String.eqb Ascii.eqb Bool.eqb app].
    rewrite !filter_map_none by reflexivity.
    destruct (failOnDiff inp); reflexivity.
Qed.

End MoreRuns.

Section MoreBanner.

Context {terminal : Terminal}.

Lemma lines_nonempty text : lines text <> [].
Proof.
  destruct text as [|c rest]; [discriminate|]. cbn.
  destruct (Ascii.eqb c "010"); [discriminate|].
  destruct (lines rest); discriminate.
Qed.

(** Splitting at the line feeds and joining with line feeds gives the text
    back. *)
Lemma join_lines_id text : join LF (lines text) = text.
Proof.
  unfold join. induction text as [|c rest IH]; [reflexivity|].
  cbn [lines]. destruct (Ascii.eqb c "010") eqn:Hc.
  - apply Ascii.eqb_eq in Hc. subst c.
    pose proof (lines_nonempty rest) as Hne.
    destruct (lines rest) as [|l ls]; [congruence|].
    change (String.concat LF ("" :: l :: ls)) with ("" ++ LF ++ String.concat LF (l :: ls)).
    rewrite IH. reflexivity.
  - pose proof (lines_nonempty rest) as Hne.
    destruct (lines rest) as [|l ls]; [congruence|].
    destruct ls as [|l' ls'].
    + cbn in IH. cbn. rewrite IH. reflexivity.
    + change (String.concat LF (String c l :: l' :: ls'))
        with (String c (l ++ LF ++ String.concat LF (l' :: ls'))).
      change (String.concat LF (l :: l' :: ls'))
        with (l ++ LF ++ String.concat LF (l' :: ls')) in IH.
      rewrite IH. reflexivity.
Qed.

(** X18. An art that has only blank lines is printed as it is: nothing is
    styled and the version is not shown. *)
Theorem blank_banner_unchanged (art version : string) :
  forallb blank (lines art) = true ->
  banner art version = Some art.
Proof.
  intros Hblank. unfold banner, stamp.
  pose proof (stamp_loop_skips version (lines art) [] [] Hblank) as H.
  cbn [length app Nat.add] in H. rewrite app_nil_r in H.
  cbn [stamp_loop] in H. rewrite H. f_equal.
  assert (Hmap : forall ls,
            forallb blank ls = true ->
            map (fun l => if truthy (trim l) then cyan_bold l else l) ls = ls).
  { clear. induction ls as [|l ls IH]; [reflexivity|]. intros Hb.
    cbn in Hb. apply andb_true_iff in Hb. destruct Hb as [Hl Hls].
    cbn. unfold blank in Hl. apply negb_true_iff in Hl. rewrite Hl, (IH Hls).
    reflexivity. }
  rewrite (Hmap _ Hblank). apply join_lines_id.
Qed.

End MoreBanner.

Lemma blank_banner_unchanged_witness :
  forallb blank (lines ("  " ++ LF ++ "" ++ LF ++ " ")) = true
  /\ banner ("  " ++ LF ++ "" ++ LF ++ " ") "1.2.3" = Some ("  " ++ LF ++ "" ++ LF ++ " ").
Proof.
  split; [reflexivity|].
  exact (blank_banner_unchanged (terminal := demo_terminal)
           ("  " ++ LF ++ "" ++ LF ++ " ") "1.2.3" eq_refl).
Defined.

Module MoreReleaseProperties.

Import Release.

Lemma plain_first_line s : plain s = true -> first_line s = s.
Proof.
  induction s as [|c s IH]; [reflexivity|]. cbn. intros H.
  apply andb_true_iff in H. destruct H as [H Hs].
  apply andb_true_iff in H. destruct H as [_ Hc].
  apply negb_true_iff in Hc. rewrite Hc, (IH Hs). reflexivity.
Qed.

Lemma plain_split_field s : plain s = true -> split_field s = (s, None).
Proof.
  induction s as [|c s IH]; [reflexivity|]. cbn. intros H.
  apply andb_true_iff in H. destruct H as [H Hs].
  apply andb_true_iff in H. destruct H as [Hc _].
  apply negb_true_iff in Hc. rewrite Hc, (IH Hs). reflexivity.
Qed.

Lemma plain_skip_digits s : plain s = true -> plain (skip_digits s) = true.
Proof.
  induction s as [|c s IH]; [reflexivity|]. intros H. cbn.
  destruct (is_digit c); [|exact H].
  cbn in H. apply andb_true_iff in H. destruct H as [_ Hs]. exact (IH Hs).
Qed.

(** X19. For a version with no dot, no hyphen and no line feed the script
    does not take it for a prerelease, [read] leaves the whole version in
    [$major] and nothing in [$minor], and [$major_minor_version] is the
    version followed by a dot. *)
Theorem version_without_separator (version : string) :
  plain version = true ->
  isPR version = false
  /\ major_version version = version
  /\ minor version = ""
  /\ major_minor_version version = version ++ ".".
Proof.
  intros Hplain.
  assert (Hpr : isPR version = false).
  { unfold isPR. destruct (match_digits version) as [s1|] eqn:H1; [|reflexivity].
    assert (Hs1 : plain s1 = true).
    { destruct version as [|c v]; [discriminate|]. cbn in H1.
      destruct (is_digit c); [|discriminate]. injection H1 as <-.
      apply plain_skip_digits. cbn in Hplain.
      apply andb_true_iff in Hplain. apply Hplain. }
    destruct s1 as [|c s1]; [reflexivity|]. cbn [match_dot].
    destruct (Ascii.eqb c ".") eqn:Hc; [|reflexivity].
    apply Ascii.eqb_eq in Hc. subst c. discriminate. }
  assert (Hmajor : major version = version).
  { unfold major. rewrite (plain_first_line _ Hplain), (plain_split_field _ Hplain).
    reflexivity. }
  assert (Hminor : minor version = "").
  { unfold minor. rewrite (plain_first_line _ Hplain), (plain_split_field _ Hplain).
    reflexivity. }
  split; [exact Hpr|]. split; [exact Hmajor|]. split; [exact Hminor|].
  unfold major_minor_version. rewrite Hmajor, Hminor. reflexivity.
Qed.

End MoreReleaseProperties.

Lemma version_without_separator_witness :
  Release.plain "12" = true
  /\ Release.isPR "12" = false
  /\ Release.minor "12" = ""
  /\ Release.major_minor_version "12" = "12.".
Proof.
  split; [reflexivity|].
  destruct (MoreReleaseProperties.version_without_separator "12" eq_refl)
    as (Hpr & _ & Hminor & Hname).
  split; [exact Hpr|]. split; [exact Hminor|exact Hname].
Defined.

(** ** The whole action *)

Section WholeRuns.

Context {host : Host} {terminal : Terminal}.

Lemma banner_printed env :
  exists text, banner (figlet_art env) (pkg_version env) = Some text.
Proof.
  unfold banner, stamp.
  destruct (stamp_loop_in_range (pkg_version env) (lines (figlet_art env))
              (length (lines (figlet_art env)))) as (ls & Hls & _); [lia|].
  rewrite Hls. eexists. reflexivity.
Qed.

(** A read that throws ends the action right after the banner. *)
Lemma action_threw env w text error :
  banner (figlet_art env) (pkg_version env) = Some text ->
  read_inputs env = Threw error ->
  action env w
  = (Failed (failure_text error), w, [ConsoleLog text; SetFailed (failure_text error)]).
Proof.
  intros Hb Hr. unfold action, action_body, print_banner, bind, read.
  rewrite Hb, Hr. reflexivity.
Qed.

(** With the inputs read, the action is the banner and then the run. *)
Lemma action_got env w text inp :
  banner (figlet_art env) (pkg_version env) = Some text ->
  read_inputs env = Got inp ->
  action env w
  = (fst (fst (run inp w)), snd (fst (run inp w)), ConsoleLog text :: snd (run inp w)).
Proof.
  intros Hb Hr. unfold action, action_body, print_banner, bind, read, run.
  rewrite Hb, Hr. cbn [emit ret].
  destruct (script_body inp w) as [[[u|error|code] w1] t]; reflexivity.
Qed.

Lemma filter_console_none (t : list Event) :
  (forall line, ~ In (ConsoleLog line) t) -> filter is_console t = [].
Proof.
  induction t as [|e t IH]; intros H; [reflexivity|].
  assert (Ht : forall line, ~ In (ConsoleLog line) t).
  { intros line Hin. apply (H line). right. exact Hin. }
  destruct e; cbn; try exact (IH Ht).
  exfalso. apply (H line). left. reflexivity.
Qed.

(** X1. An action whose inputs are read sets the output [command_failures]
    exactly once, to the number of results with [ok] false, whichever way it
    then ends; an action stopped by a read that throws sets no output. *)
Theorem action_command_failures_output (env : Environment) (w : World) :
  match read_inputs env with
  | Got inp =>
      exists results w1,
        pipeline w (commands inp) results w1
        /\ filter (is_output "command_failures") (snd (action env w))
           = [SetOutput "command_failures"
                (string_of_nat (length (filter (fun r => negb (ok r)) results)))]
  | Threw _ => filter is_any_output (snd (action env w)) = []
  end.
Proof.
  destruct (banner_printed env) as (text & Hb).
  destruct (read_inputs env) as [inp|error] eqn:Hr.
  - destruct (command_failures_output inp w) as (results & w1 & Hp & Hf).
    exists results, w1. split; [exact Hp|].
    rewrite (action_got _ _ _ _ Hb Hr). cbn [snd filter is_output]. exact Hf.
  - rewrite (action_threw _ _ _ _ Hb Hr). reflexivity.
Qed.

(** X4. The exit status of an action is 1 when a read of an input throws;
    with the inputs read it is 1 exactly when [failOnCommandError] is on and
    some command has failed, or else the tree has changed and [failOnDiff]
    is on, and 0 otherwise. *)
Theorem action_exit_status (env : Environment) (w : World) :
  match read_inputs env with
  | Threw _ => exit_status (fst (fst (action env w))) = 1%Z
  | Got inp =>
      exists results w1,
        pipeline w (commands inp) results w1
        /\ exit_status (fst (fst (action env w)))
           = if failOnCommandError inp && negb (forallb ok results) then 1%Z
             else if fst (git_hasDiff w1) && failOnDiff inp then 1%Z
             else 0%Z
  end.
Proof.
  destruct (banner_printed env) as (text & Hb).
  destruct (read_inputs env) as [inp|error] eqn:Hr.
  - destruct (exit_status_table inp w) as (results & w1 & Hp & He).
    exists results, w1. split; [exact Hp|].
    rewrite (action_got _ _ _ _ Hb Hr). cbn [fst]. exact He.
  - rewrite (action_threw _ _ _ _ Hb Hr). reflexivity.
Qed.

(** X5. [core.setFailed] is called exactly in the actions that end failed:
    once, as the last call.  Its text is, for a read that threw, the name and
    the message of what was thrown when that is an [Error] and the thrown
    value made a string otherwise; with the inputs read it starts with
    ["Error: "].  An action that does not end failed has read its inputs and
    never calls [core.setFailed]. *)
Theorem action_setFailed_once_and_last (env : Environment) (w : World) :
  match fst (fst (action env w)) with
  | Failed text =>
      exists before,
        snd (action env w) = (before ++ [SetFailed text])%list
        /\ filter is_setFailed before = []
        /\ match read_inputs env with
           | Threw error =>
               text = if instanceof_Error error
                      then error_name error ++ ": " ++ error_message error
                      else to_String error
           | Got _ => exists reason, text = "Error: " ++ reason
           end
  | _ =>
      filter is_setFailed (snd (action env w)) = []
      /\ exists inp, read_inputs env = Got inp
  end.
Proof.
  destruct (banner_printed env) as (text & Hb).
  destruct (read_inputs env) as [inp|error] eqn:Hr.
  - pose proof (setFailed_once_and_last inp w) as H.
    rewrite (action_got _ _ _ _ Hb Hr). cbn [fst snd].
    destruct (fst (fst (run inp w))) as [|code|failed].
    + split; [exact H|eauto].
    + split; [exact H|eauto].
    + destruct H as (before & reason & Ht & Hnone & Htext).
      exists (ConsoleLog text :: before). rewrite Ht. split; [reflexivity|].
      split; [exact Hnone|eauto].
  - rewrite (action_threw _ _ _ _ Hb Hr). cbn [fst snd].
    exists [ConsoleLog text]. repeat split.
Qed.

(** X7. An action whose inputs are read calls the executor once for each
    command, in order, inside the group ["Running commands"] that follows
    the banner, also when it then ends failed, and not after that group; an
    action stopped by a read that throws never calls the executor. *)
Theorem action_executor_calls (env : Environment) (w : World) :
  match read_inputs env with
  | Got inp =>
      exists text rest,
        snd (action env w)
        = (ConsoleLog text :: StartGroup "Running commands"
             :: map Execa (commands inp) ++ EndGroup :: rest)%list
        /\ filter is_execa rest = []
  | Threw _ => filter is_execa (snd (action env w)) = []
  end.
Proof.
  destruct (banner_printed env) as (text & Hb).
  destruct (read_inputs env) as [inp|error] eqn:Hr.
  - destruct (executor_calls inp w) as (rest & Ht & Hnone).
    exists text, rest. split; [|exact Hnone].
    rewrite (action_got _ _ _ _ Hb Hr). cbn [snd]. rewrite Ht. reflexivity.
  - rewrite (action_threw _ _ _ _ Hb Hr). reflexivity.
Qed.

(** X10. On a clean tree the inspector is asked nothing more (the changed
    files are not fetched and no diff is printed), and the banner is the
    only thing the action logs to the console. *)
Theorem action_clean_tree (env : Environment) (w : World)
    (e : RunEnd) (w' : World) (t : list Event) :
  action env w = (e, w', t) ->
  In (GitHasDiff false) t ->
  filter is_inspector t = [GitHasDiff false]
  /\ exists text,
      banner (figlet_art env) (pkg_version env) = Some text
      /\ filter is_console t = [ConsoleLog text].
Proof.
  intros Hact Hin.
  destruct (banner_printed env) as (text & Hb).
  destruct (read_inputs env) as [inp|error] eqn:Hr.
  - rewrite (action_got _ _ _ _ Hb Hr) in Hact.
    apply triple_eq in Hact. destruct Hact as (-> & -> & ->).
    apply in_inv in Hin. destruct Hin as [Hin|Hin]; [discriminate|].
    destruct (run inp w) as [[e0 w0] t0] eqn:Hrun. cbn [fst snd] in *.
    destruct (clean_tree_asks_nothing_more inp w e0 w0 t0 Hrun Hin) as (Hask & Hlog).
    split; [exact Hask|]. exists text. split; [exact Hb|].
    cbn [filter is_console]. rewrite (filter_console_none _ Hlog). reflexivity.
  - rewrite (action_threw _ _ _ _ Hb Hr) in Hact.
    apply triple_eq in Hact. destruct Hact as (-> & -> & ->).
    split_In Hin; discriminate.
Qed.

End WholeRuns.

Lemma action_clean_tree_witness :
  In (GitHasDiff false)
     (snd (action (host := demo_host) (terminal := demo_terminal)
             (demo_environment demo_clean) []))
  /\ filter is_inspector
       (snd (action (host := demo_host) (terminal := demo_terminal)
               (demo_environment demo_clean) []))
     = [GitHasDiff false]
  /\ filter is_console
       (snd (action (host := demo_host) (terminal := demo_terminal)
               (demo_environment demo_clean) []))
     = [ConsoleLog ("<  __ >" ++ LF ++ "<< /_/> (v1.2.3)>" ++ LF ++ "")].
Proof.
  assert (Hin : In (GitHasDiff false)
                   (snd (action (host := demo_host) (terminal := demo_terminal)
                           (demo_environment demo_clean) [])))
    by (vm_compute; tauto).
  split; [exact Hin|].
  destruct (action_clean_tree (host := demo_host) (terminal := demo_terminal)
              (demo_environment demo_clean) [] _ _ _ eq_refl Hin)
    as (Hask & text & Hb & Hlog).
  split; [exact Hask|].
  vm_compute in Hb. injection Hb as <-. exact Hlog.
Defined.

(** An action whose [fail-on-diff] input is no boolean: the banner, then the
    failure with the [TypeError]'s name and message; no command is run. *)
Example action_bad_switch :
  action (host := demo_host) (terminal := demo_terminal) demo_bad_switch []
  = (Failed ("TypeError: " ++ error_message (not_a_boolean "fail-on-diff")), [],
     [ConsoleLog ("<  __ >" ++ LF ++ "<< /_/> (v1.2.3)>" ++ LF ++ "");
      SetFailed ("TypeError: " ++ error_message (not_a_boolean "fail-on-diff"))]).
Proof. reflexivity. Qed.
